(** * Kokoro TTS API: a shallow embedding of [kokoro_tts_api.py]

    The module is a Flask wrapper around the [kokoro] command-line tool.
    What follows models, in the order of the source file:
    - Python values as they come out of [request.get_json()] (module [Py]);
    - [Config], [validate_request_data], [run_kokoro_command];
    - the handlers [get_voices], [synthesize_text], [synthesize_stream].

    Python strings are sequences of Unicode code points: [list N].  Exceptions
    are values of [exn] carried by [result]; code that also touches the file
    system, the logger, the UUID generator or the subprocess runs in the
    state-and-exception monad [M] over [World]. *)

From Stdlib Require Import ZArith NArith Ascii DecimalString PrimFloat.
From stdpp Require Import base option list strings gmap.

Local Open Scope Z_scope.

(** ** Python strings *)

Abbreviation pystr := (list N).

(** A string literal of the source, as code points. *)
Definition u (s : string) : pystr := N_of_ascii <$> String.list_ascii_of_string s.

(** [str(n)] for an [int]. *)
Definition str_of_int (n : Z) : pystr := u (NilZero.string_of_int (Z.to_int n)).

(** [str.isspace] on one code point: the code points whose Unicode general
    category is [Zs] or whose bidirectional class is [WS], [B] or [S]. *)
Definition isspace (c : N) : bool :=
  ((0x09 <=? c) && (c <=? 0x0D) || (0x1C <=? c) && (c <=? 0x20)
   || (c =? 0x85) || (c =? 0xA0) || (c =? 0x1680)
   || (0x2000 <=? c) && (c <=? 0x200A)
   || (c =? 0x2028) || (c =? 0x2029) || (c =? 0x202F) || (c =? 0x205F)
   || (c =? 0x3000))%N.

(** [s.lstrip()], [s.rstrip()], [s.strip()]: the scan from the left stops at
    the first code point that is not white space, and so does the scan from
    the right. *)
Fixpoint lstrip (s : pystr) : pystr :=
  match s with
  | c :: s' => if isspace c then lstrip s' else s
  | [] => []
  end.

Definition rstrip (s : pystr) : pystr := reverse (lstrip (reverse s)).

Definition strip (s : pystr) : pystr := rstrip (lstrip s).

(** [s.lower()].  The source only compares the result with ['wav'].  The
    letters [A]-[Z] are lowered; every other code point is kept, which agrees
    with Python on that comparison: no code point outside [A]-[Z] has a
    lower-case form that contains [w], [a] or [v]. *)
Definition lower_char (c : N) : N :=
  if ((0x41 <=? c) && (c <=? 0x5A))%N then (c + 0x20)%N else c.

Definition lower (s : pystr) : pystr := lower_char <$> s.

(** [len(s)]. *)
Definition len {A} (s : list A) : Z := Z.of_nat (length s).

(** [sep.join(items)] on strings. *)
Fixpoint join (sep : pystr) (items : list pystr) : pystr :=
  match items with
  | [] => []
  | [x] => x
  | x :: rest => x ++ sep ++ join sep rest
  end.

(** ** Values decoded from a JSON body *)

#[warnings="-register-all"] Inductive json :=
| JNull
| JBool (b : bool)
| JInt (n : Z)
| JFloat (x : float)
| JStr (s : pystr)
| JList (l : list json)
| JDict (m : gmap pystr json).

(** Truth value of an object, as [if not x] takes it. *)
Definition truthy (v : json) : bool :=
  match v with
  | JNull => false
  | JBool b => b
  | JInt n => negb (n =? 0)
  | JFloat x => negb (PrimFloat.eqb x 0)
  | JStr s => negb (Nat.eqb (length s) 0)
  | JList l => negb (Nat.eqb (length l) 0)
  | JDict m => negb (Nat.eqb (size m) 0)
  end.

(** [type(v).__name__]. *)
Definition type_name (v : json) : pystr :=
  match v with
  | JNull => u "NoneType"
  | JBool _ => u "bool"
  | JInt _ => u "int"
  | JFloat _ => u "float"
  | JStr _ => u "str"
  | JList _ => u "list"
  | JDict _ => u "dict"
  end.

(** ** Exceptions *)

(** Each exception carries the text [str(e)] gives, apart from [BadRequest],
    which carries its description. *)
Inductive exn :=
| BadRequest (description : pystr)
| AttributeError (msg : pystr)
| TypeError (msg : pystr)
| TimeoutExpired (msg : pystr)
| OtherException (msg : pystr).

Definition is_BadRequest (e : exn) : bool :=
  match e with BadRequest _ => true | _ => false end.

(** [str(e)]; werkzeug renders an HTTP exception as code, name, description. *)
Definition exn_str (e : exn) : pystr :=
  match e with
  | BadRequest d => u "400 Bad Request: " ++ d
  | AttributeError m | TypeError m | TimeoutExpired m | OtherException m => m
  end.

Inductive result (A : Type) :=
| Ok (a : A)
| Raise (e : exn).
Arguments Ok {A} a.
Arguments Raise {A} e.

#[export] Instance result_ret : MRet result := @Ok.
#[export] Instance result_bind : MBind result := λ A B f r,
  match r with Ok a => f a | Raise e => Raise e end.
#[export] Instance result_fmap : FMap result := λ A B f r,
  match r with Ok a => Ok (f a) | Raise e => Raise e end.

Definition no_attribute (v : json) (attr : string) : exn :=
  AttributeError (u "'" ++ type_name v ++ u "' object has no attribute '" ++ u attr ++ u "'").

Module Py.

(** [d.get(key, default)]: only a [dict] has the method. *)
Definition get (d : json) (key : pystr) (fallback : json) : result json :=
  match d with
  | JDict m => Ok (default fallback (m !! key))
  | _ => Raise (no_attribute d "get")
  end.

(** [v.strip()] and [v.lower()]: only a [str] has the methods. *)
Definition strip (v : json) : result pystr :=
  match v with
  | JStr s => Ok (strip s)
  | _ => Raise (no_attribute v "strip")
  end.

Definition lower (v : json) : result pystr :=
  match v with
  | JStr s => Ok (lower s)
  | _ => Raise (no_attribute v "lower")
  end.

(** [v in items] for a list of strings: [==] between a [str] and a value
    of another type is [False], and never raises. *)
Definition contains (items : list pystr) (v : json) : bool :=
  match v with
  | JStr s => bool_decide (s ∈ items)
  | _ => false
  end.

(** The items of a list as strings, where all of them are [str]:
    [' '.join] and [subprocess.run] raise [TypeError] on any other item. *)
Fixpoint strs (items : list json) : result (list pystr) :=
  match items with
  | [] => Ok []
  | JStr s :: rest => l ← strs rest; Ok (s :: l)
  | v :: _ =>
      Raise (TypeError (u "expected str instance, " ++ type_name v ++ u " found"))
  end.

End Py.

(** ** Configuration *)

Module Config.

Definition MAX_TEXT_LENGTH : Z := 10000.

Definition ALLOWED_VOICES : list pystr :=
  u <$> [ "af_alloy"; "af_aoede"; "af_bella"; "af_heart"; "af_jessica"; "af_kore";
          "af_nicole"; "af_nova"; "af_river"; "af_sarah"; "af_sky"; "am_adam";
          "am_michael"; "bf_alice"; "bf_emma"; "bf_isabella"; "bf_lily";
          "bm_george"; "bm_lewis"; "jf_alpha"; "jf_gongitsune"; "jf_nezumi";
          "jf_tebukuro" ]%string.

Definition CLEANUP_FILES : bool := true.

End Config.

(** ** The request validator *)

Definition msg_body_required : pystr := u "Request body is required".
Definition msg_text_required : pystr := u "Text field is required and cannot be empty".
Definition msg_text_too_long : pystr :=
  u "Text length exceeds maximum of " ++ str_of_int Config.MAX_TEXT_LENGTH ++ u " characters".
Definition msg_invalid_voice : pystr :=
  u "Invalid voice. Allowed voices: " ++ join (u ", ") Config.ALLOWED_VOICES.
Definition msg_wav_only : pystr :=
  u "Only WAV format is supported. Please omit the format parameter or use 'wav'.".

Definition validate_request_data (data : json) : result (pystr * json) :=
  if negb (truthy data) then Raise (BadRequest msg_body_required) else
  t ← Py.get data (u "text") (JStr (u ""));
  text ← Py.strip t;
  if negb (truthy (JStr text)) then Raise (BadRequest msg_text_required) else
  if Config.MAX_TEXT_LENGTH <? len text then Raise (BadRequest msg_text_too_long) else
  voice ← Py.get data (u "voice") (JStr (u "af_heart"));
  if negb (Py.contains Config.ALLOWED_VOICES voice) then Raise (BadRequest msg_invalid_voice) else
  format_param ← Py.get data (u "format") JNull;
  unsupported ← (if truthy format_param
                 then l ← Py.lower format_param; Ok (negb (bool_decide (l = u "wav")))
                 else Ok false);
  if (unsupported : bool) then Raise (BadRequest msg_wav_only) else
  Ok (text, voice).

(** A JSON object written as the list of its fields. *)
Definition body (fields : list (string * json)) : json :=
  JDict (list_to_map (prod_map u id <$> fields)).

(** ** The validator as an ordered list of checks *)

(** The five rules of the validator, each read on the request body alone:
    the body is there, the text is not empty, the text is not too long, the
    voice is allowed, the format is supported.  A check answers [None] when
    the body passes it and [Some e] when it fails with [e]; reading a field
    of the wrong type is the failure of the check that reads it first (the
    text check for a body that is no object or a text that is no string,
    the format check for a format that is no string). *)
Definition text_of (data : json) : result pystr :=
  t ← Py.get data (u "text") (JStr (u "")); Py.strip t.

Definition voice_of (data : json) : result json :=
  Py.get data (u "voice") (JStr (u "af_heart")).

Definition check_body (data : json) : option exn :=
  if truthy data then None else Some (BadRequest msg_body_required).

Definition check_text (data : json) : option exn :=
  match text_of data with
  | Ok text => if truthy (JStr text) then None else Some (BadRequest msg_text_required)
  | Raise e => Some e
  end.

Definition check_length (data : json) : option exn :=
  match text_of data with
  | Ok text =>
      if Config.MAX_TEXT_LENGTH <? len text then Some (BadRequest msg_text_too_long) else None
  | Raise _ => None
  end.

Definition check_voice (data : json) : option exn :=
  match voice_of data with
  | Ok voice =>
      if Py.contains Config.ALLOWED_VOICES voice then None
      else Some (BadRequest msg_invalid_voice)
  | Raise _ => None
  end.

Definition check_format (data : json) : option exn :=
  match Py.get data (u "format") JNull with
  | Ok format_param =>
      if truthy format_param then
        match Py.lower format_param with
        | Ok l => if bool_decide (l = u "wav") then None else Some (BadRequest msg_wav_only)
        | Raise e => Some e
        end
      else None
  | Raise _ => None
  end.

Definition ordered_checks : list (json → option exn) :=
  [check_body; check_text; check_length; check_voice; check_format].

(** The failure of the first check of the list that the body does not pass. *)
Fixpoint first_violation (checks : list (json → option exn)) (data : json) : option exn :=
  match checks with
  | [] => None
  | c :: rest =>
      match c data with
      | Some e => Some e
      | None => first_violation rest data
      end
  end.

(** What the validator hands back when nothing fails. *)
Definition validated (data : json) : result (pystr * json) :=
  text ← text_of data; voice ← voice_of data; Ok (text, voice).

(** ** The world the handlers run in *)

Inductive level := INFO | WARNING | ERROR.

(** What [subprocess.run(..., capture_output=True, text=True)] returns. *)
Record CompletedProcess := {
  returncode : Z;
  stdout : pystr;
  stderr : pystr
}.

(** The file system (path to contents), the number of identifiers drawn from
    the UUID generator, the calls of [subprocess.run] made so far (argument
    vector and timeout in seconds), and the records handed to the logger. *)
Record World := {
  files : gmap pystr (list N);
  uuids : nat;
  invocations : list (list pystr * Z);
  logs : list (level * pystr)
}.

(** Statements that can raise and that act on the world: the effects made
    before an exception is raised stay. *)
Definition M (A : Type) : Type := World → result A * World.

#[export] Instance M_ret : MRet M := λ A a w, (Ok a, w).
#[export] Instance M_bind : MBind M := λ A B f m w,
  match m w with
  | (Ok a, w') => f a w'
  | (Raise e, w') => (Raise e, w')
  end.

Definition lift {A} (r : result A) : M A := λ w, (r, w).

(** [try: body except Exception as e: handler(e)]. *)
Definition try_except {A} (body : M A) (handler : exn → M A) : M A := λ w,
  match body w with
  | (Ok a, w') => (Ok a, w')
  | (Raise e, w') => handler e w'
  end.

Definition logger (lv : level) (msg : pystr) : M unit := λ w,
  (Ok (), {| files := files w; uuids := uuids w; invocations := invocations w;
             logs := logs w ++ [(lv, msg)] |}).

Definition set_files (fs : gmap pystr (list N)) (w : World) : World :=
  {| files := fs; uuids := uuids w; invocations := invocations w; logs := logs w |}.

(** [os.path.exists], [os.unlink], and reading a whole file. *)
Definition os_path_exists (path : pystr) : M bool := λ w,
  (Ok (bool_decide (is_Some (files w !! path))), w).

Definition no_such_file (path : pystr) : exn :=
  OtherException (u "[Errno 2] No such file or directory: '" ++ path ++ u "'").

Definition os_unlink (path : pystr) : M unit := λ w,
  match files w !! path with
  | Some _ => (Ok (), set_files (delete path (files w)) w)
  | None => (Raise (no_such_file path), w)
  end.

Definition read_file (path : pystr) : M (list N) := λ w,
  match files w !! path with
  | Some data => (Ok data, w)
  | None => (Raise (no_such_file path), w)
  end.

(** [os.path.join(a, b)] of [posixpath]; [sep] is the slash, [quote] the
    double quote. *)
Definition sep : N := 0x2F%N.
Definition quote : N := 0x22%N.

Definition startswith_sep (p : pystr) : bool :=
  match p with c :: _ => (c =? sep)%N | [] => false end.

Definition endswith_sep (p : pystr) : bool :=
  match last p with Some c => (c =? sep)%N | None => false end.

Definition os_path_join (a b : pystr) : pystr :=
  if startswith_sep b then b
  else if Nat.eqb (length a) 0 || endswith_sep a then a ++ b
  else a ++ [sep] ++ b.

(** ** Responses *)

Inductive Payload :=
| Json (j : json)
| Attachment (data : list N) (download_name mimetype : pystr)
| Bytes (data : list N) (headers : list (pystr * pystr)).

(** A response: its payload, its status code, and the path whose clean-up
    was registered with [call_on_close], when one was. *)
Record Response := {
  payload : Payload;
  status : Z;
  on_close : option pystr
}.

(** [jsonify({...})]: a JSON response, status 200. *)
Definition jsonify (fields : list (string * json)) : Response :=
  {| payload := Json (body fields); status := 200; on_close := None |}.

(** [return response, code]. *)
Definition with_status (r : Response) (code : Z) : Response :=
  {| payload := payload r; status := code; on_close := on_close r |}.

Definition call_on_close (r : Response) (path : pystr) : Response :=
  {| payload := payload r; status := status r; on_close := Some path |}.

(** [send_file(path, as_attachment=True, download_name=..., mimetype=...)]
    opens the file, and raises when it is not there. *)
Definition send_file (path download_name mimetype : pystr) : M Response :=
  data ← read_file path;
  mret {| payload := Attachment data download_name mimetype; status := 200; on_close := None |}.

(** A request, as far as the handlers read it: what [request.get_json()]
    returns or raises. *)
Record Request := { get_json : result json }.

(** ** The synthesis invoker and the handlers *)

Section Server.

(** What the process gets from outside: the working directory at start-up,
    the identifiers [str(uuid.uuid4())] returns (the n-th one drawn), and
    the behaviour of [subprocess.run] on an argument vector with a timeout:
    given the number of earlier calls and the file system, the completed
    process or the exception raised ([TimeoutExpired] when the time bound is
    exceeded), and the file system the child leaves behind. *)
Variable getcwd : pystr.
Variable uuid4 : nat → pystr.
Variable subprocess_run :
  list pystr → Z → nat → gmap pystr (list N) → result CompletedProcess * gmap pystr (list N).

Definition TEMP_DIR : pystr := os_path_join getcwd (u "output_temp").

Definition new_uuid : M pystr := λ w,
  (Ok (uuid4 (uuids w)),
   {| files := files w; uuids := S (uuids w); invocations := invocations w; logs := logs w |}).

(** [subprocess.run(cmd, capture_output=True, text=True, timeout=t)]. *)
Definition spawn (argv : list pystr) (timeout : Z) : M CompletedProcess := λ w,
  let '(r, fs) := subprocess_run argv timeout (length (invocations w)) (files w) in
  (r, {| files := fs; uuids := uuids w;
         invocations := invocations w ++ [(argv, timeout)]; logs := logs w |}).

Definition run (cmd : list json) (timeout : Z) : M CompletedProcess :=
  argv ← lift (Py.strs cmd);
  spawn argv timeout.

Definition kokoro_cmd (text : pystr) (voice : json) (output_path : pystr) : list json :=
  [JStr (u "kokoro"); JStr (u "--voice"); voice; JStr (u "--text"); JStr text;
   JStr (u "-o"); JStr output_path].

Definition run_kokoro_command (text : pystr) (voice : json) (output_path : pystr) : M bool :=
  try_except
    (let cmd := kokoro_cmd text voice output_path in
     line ← lift (join (u " ") <$> Py.strs cmd);
     _ ← logger INFO (u "Running command: " ++ line);
     result ← run cmd 60;
     if negb (returncode result =? 0) then
       _ ← logger ERROR (u "Kokoro command failed: " ++ stderr result);
       mret false
     else
       created ← os_path_exists output_path;
       if negb created then
         _ ← logger ERROR (u "Output file was not created: " ++ output_path);
         mret false
       else mret true)
    (λ e, match e with
          | TimeoutExpired _ =>
              _ ← logger ERROR (u "Kokoro command timed out");
              mret false
          | _ =>
              _ ← logger ERROR (u "Error running kokoro command: " ++ exn_str e);
              mret false
          end).

Definition health_check : M Response :=
  mret (jsonify [("status", JStr (u "healthy")); ("service", JStr (u "Kokoro TTS API"));
                 ("version", JStr (u "1.0.0")); ("supported_format", JStr (u "wav"))]%string).

Definition get_voices : M Response :=
  mret (jsonify [("voices", JList (JStr <$> Config.ALLOWED_VOICES));
                 ("default", JStr (u "af_heart"));
                 ("supported_format", JStr (u "wav"))]%string).

Definition synthesis_failed : Response :=
  with_status (jsonify [("error", JStr (u "TTS synthesis failed"));
                        ("message", JStr (u "Failed to generate audio file"))]%string) 500.

Definition invalid_request (e : exn) : Response :=
  with_status (jsonify [("error", JStr (u "Invalid request"));
                        ("message", JStr (exn_str e))]%string) 400.

Definition internal_server_error : Response :=
  with_status (jsonify [("error", JStr (u "Internal server error"));
                        ("message", JStr (u "An unexpected error occurred"))]%string) 500.

Definition file_read_error : Response :=
  with_status (jsonify [("error", JStr (u "File read error"));
                        ("message", JStr (u "Failed to read generated audio file"))]%string) 500.

(** The headers of the inline response. *)
Definition inline_headers : list (pystr * pystr) :=
  [(u "Content-Type", u "audio/wav");
   (u "Content-Disposition",
    u "inline; filename=" ++ [quote] ++ u "tts_output.wav" ++ [quote])].

(** The [except] clauses both handlers end with. *)
Definition on_exception (handler_name : string) (e : exn) : M Response :=
  match e with
  | BadRequest _ => mret (invalid_request e)
  | _ =>
      _ ← logger ERROR (u "Unexpected error in " ++ u handler_name ++ u ": " ++ exn_str e);
      mret internal_server_error
  end.

(** The path of a request's artifact: [kokoro_tts_<file_id>.wav] under
    [TEMP_DIR]. *)
Definition output_path_of (file_id : pystr) : pystr :=
  os_path_join TEMP_DIR (u "kokoro_tts_" ++ file_id ++ u ".wav").

(** The callback [remove_file] that [synthesize_text] registers; it runs
    when the response is closed. *)
Definition remove_file (output_path : pystr) : M unit :=
  if Config.CLEANUP_FILES then
    try_except
      (_ ← os_unlink output_path;
       logger INFO (u "Cleaned up temporary file: " ++ output_path))
      (λ e, logger WARNING (u "Failed to clean up file " ++ output_path ++ u ": " ++ exn_str e))
  else mret ().

(** Closing a response runs the callback registered on it. *)
Definition close (response : Response) : M unit :=
  match on_close response with
  | Some output_path => remove_file output_path
  | None => mret ()
  end.

Definition synthesize_text (request : Request) : M Response :=
  try_except
    (data ← lift (get_json request);
     '(text, voice) ← lift (validate_request_data data);
     file_id ← new_uuid;
     let output_path := output_path_of file_id in
     success ← run_kokoro_command text voice output_path;
     if negb success then mret synthesis_failed
     else
       response ← send_file output_path (u "tts_output.wav") (u "audio/wav");
       mret (call_on_close response output_path))
    (on_exception "synthesize_text").

Definition synthesize_stream (request : Request) : M Response :=
  try_except
    (data ← lift (get_json request);
     '(text, voice) ← lift (validate_request_data data);
     file_id ← new_uuid;
     let output_path := output_path_of file_id in
     success ← run_kokoro_command text voice output_path;
     if negb success then mret synthesis_failed
     else
       try_except
         (audio_data ← read_file output_path;
          _ ← (if Config.CLEANUP_FILES then os_unlink output_path else mret ());
          mret {| payload := Bytes audio_data inline_headers;
                  status := 200; on_close := None |})
         (λ e, _ ← logger ERROR (u "Error reading output file: " ++ exn_str e);
               mret file_read_error))
    (on_exception "synthesize_stream").

(** The four routes of the application. *)
Inductive Endpoint := Health | Voices | Synthesize | SynthesizeStream.

Definition handle (ep : Endpoint) (request : Request) : M Response :=
  match ep with
  | Health => health_check
  | Voices => get_voices
  | Synthesize => synthesize_text request
  | SynthesizeStream => synthesize_stream request
  end.

(** Requests handled one after the other, each in the world the previous
    one left. *)
Fixpoint serve (requests : list (Endpoint * Request)) : M (list Response) :=
  match requests with
  | [] => mret []
  | (ep, request) :: rest =>
      response ← handle ep request;
      responses ← serve rest;
      mret (response :: responses)
  end.

End Server.

(** The argument vector [run_kokoro_command] builds, and the output path
    (the argument after [-o]) of a recorded call. *)
Definition kokoro_argv (text voice output_path : pystr) : list pystr :=
  [u "kokoro"; u "--voice"; voice; u "--text"; text; u "-o"; output_path].

Definition output_arg (call : list pystr * Z) : option pystr := call.1 !! 6%nat.

(** Success as the specification words it: the call of the tool returned,
    its exit status is zero, and the output file exists afterwards. *)
Definition succeeded (out : result CompletedProcess * gmap pystr (list N))
    (output_path : pystr) : bool :=
  match out.1 with
  | Ok p => (returncode p =? 0) && bool_decide (is_Some (out.2 !! output_path))
  | Raise _ => false
  end.

(** The two handlers that synthesize. *)
Definition synthesizes (ep : Endpoint) : bool :=
  match ep with Synthesize | SynthesizeStream => true | _ => false end.

(** ** A platform to run the handlers on

    A working directory, an identifier source that never repeats, and three
    behaviours of the tool: it writes the file and exits 0, it exits 0 and
    writes nothing, it runs out of time. *)
Module Demo.

Definition cwd : pystr := u "/srv/app".

Definition uuid4 (n : nat) : pystr := replicate (S n) 0x30%N.

Definition completed (code : Z) : CompletedProcess :=
  {| returncode := code; stdout := u ""; stderr := u "" |}.

Definition kokoro_ok (argv : list pystr) (timeout : Z) (n : nat)
    (fs : gmap pystr (list N)) : result CompletedProcess * gmap pystr (list N) :=
  match argv !! 6%nat with
  | Some path => (Ok (completed 0), <[path := u "RIFF"]> fs)
  | None => (Ok (completed 2), fs)
  end.

Definition kokoro_silent (argv : list pystr) (timeout : Z) (n : nat)
    (fs : gmap pystr (list N)) : result CompletedProcess * gmap pystr (list N) :=
  (Ok (completed 0), fs).

Definition kokoro_slow (argv : list pystr) (timeout : Z) (n : nat)
    (fs : gmap pystr (list N)) : result CompletedProcess * gmap pystr (list N) :=
  (Raise (TimeoutExpired (u "Command timed out after 60 seconds")), fs).

Definition start : World := {| files := ∅; uuids := 0; invocations := []; logs := [] |}.

Definition post (fields : list (string * json)) : Request := {| get_json := Ok (body fields) |}.

End Demo.


(** ** The error handlers of the application *)




(** ** Vocabulary of the further properties *)

(** The response [synthesize_text] builds from the artifact, and the one
    [synthesize_stream] builds. *)
Definition download_response (audio : list N) (output_path : pystr) : Response :=
  {| payload := Attachment audio (u "tts_output.wav") (u "audio/wav");
     status := 200; on_close := Some output_path |}.

Definition inline_response (audio : list N) : Response :=
  {| payload := Bytes audio inline_headers; status := 200; on_close := None |}.



(** The description of the [BadRequest] that parsing or validating a
    request raises, when it raises one. *)
Definition bad_request_of (request : Request) : option pystr :=
  match get_json request with
  | Ok data =>
      match validate_request_data data with
      | Raise (BadRequest d) => Some d
      | _ => None
      end
  | Raise (BadRequest d) => Some d
  | Raise _ => None
  end.

(** A call of the tool made on validated input: the timeout is 60, and
    the argument vector carries a voice of the allow-list, a stripped text of
    1 to 10000 characters, and the artifact path of some identifier. *)
Definition validated_call (getcwd : pystr) (call : list pystr * Z) : Prop :=
  call.2 = 60 ∧
  ∃ text voice file_id,
    call.1 = kokoro_argv text voice (output_path_of getcwd file_id) ∧
    voice ∈ Config.ALLOWED_VOICES ∧ 1 ≤ len text ≤ 10000 ∧ strip text = text.

(** The requests that get as far as the tool: those sent to a synthesizing
    endpoint whose body parses and validates. *)
Definition reaches_tool (r : Endpoint * Request) : bool :=
  synthesizes r.1 &&
  match get_json r.2 with
  | Ok data => match validate_request_data data with Ok _ => true | Raise _ => false end
  | Raise _ => false
  end.

(** The log records of a level. *)
Definition records (lv : level) (w : World) : list pystr :=
  omap (λ r, match r.1, lv with
             | INFO, INFO | WARNING, WARNING | ERROR, ERROR => Some r.2
             | _, _ => None
             end) (logs w).

(** A tool that writes the start of a file and exits with status 1. *)
Definition kokoro_partial (argv : list pystr) (timeout : Z) (n : nat)
    (fs : gmap pystr (list N)) : result CompletedProcess * gmap pystr (list N) :=
  match argv !! 6%nat with
  | Some path => (Ok (Demo.completed 1), <[path := u "RI"]> fs)
  | None => (Ok (Demo.completed 2), fs)
  end.

(** * Properties *)

#[local] Opaque u.
#[local] Arguments strip : simpl never.
#[local] Arguments lower : simpl never.
#[local] Arguments Py.contains : simpl never.
#[local] Arguments Z.ltb : simpl never.
#[local] Arguments bool_decide : simpl never.
#[local] Arguments inline_headers : simpl never.
#[local] Arguments output_path_of : simpl never.
#[local] Arguments kokoro_argv : simpl never.

(** ** Strings *)

Lemma lstrip_spec (s : pystr) :
  ∃ pre, s = pre ++ lstrip s ∧ Forall (λ c, isspace c = true) pre ∧
         ∀ c, head (lstrip s) = Some c → isspace c = false.
Proof.
  induction s as [|c s (pre & Hs & Hpre & Hhd)]; simpl.
  - exists []. by repeat split.
  - destruct (isspace c) eqn:Hc.
    + exists (c :: pre). repeat split; [by rewrite Hs at 1 | by constructor | done].
    + exists []. repeat split; [done|]. simpl. by intros ? [= <-].
Qed.

Lemma rstrip_spec (s : pystr) :
  ∃ post, s = rstrip s ++ post ∧ Forall (λ c, isspace c = true) post ∧
          ∀ c, last (rstrip s) = Some c → isspace c = false.
Proof.
  unfold rstrip. destruct (lstrip_spec (reverse s)) as (pre & Hs & Hpre & Hhd).
  exists (reverse pre). repeat split.
  - rewrite <-reverse_app, <-Hs. by rewrite reverse_involutive.
  - by apply Forall_reverse.
  - intros c. rewrite last_reverse. apply Hhd.
Qed.

(** [strip] removes white space at both ends and nothing else, and what it
    returns neither starts nor ends with white space. *)
Lemma strip_spec (s : pystr) :
  ∃ pre post, s = pre ++ strip s ++ post ∧
    Forall (λ c, isspace c = true) pre ∧ Forall (λ c, isspace c = true) post ∧
    (∀ c, head (strip s) = Some c → isspace c = false) ∧
    (∀ c, last (strip s) = Some c → isspace c = false).
Proof.
  unfold strip.
  destruct (lstrip_spec s) as (pre & Hs & Hpre & Hhd).
  destruct (rstrip_spec (lstrip s)) as (post & Ht & Hpost & Hlast).
  exists pre, post. repeat split; try done.
  - by rewrite <-Ht.
  - intros c Hc. apply Hhd. rewrite Ht.
    destruct (rstrip (lstrip s)); [done|]. exact Hc.
Qed.

Lemma strip_length (s : pystr) : len (strip s) ≤ len s.
Proof.
  destruct (strip_spec s) as (pre & post & Hs & _).
  unfold len. rewrite Hs at 2. rewrite !length_app. lia.
Qed.

(** ['wav'] up to case: the eight spellings. *)
Lemma lower_char_inv (c x : N) :
  lower_char c = x → c = x ∨ (c + 0x20 = x ∧ 0x41 ≤ c ≤ 0x5A)%N.
Proof.
  unfold lower_char.
  destruct (0x41 <=? c)%N eqn:H1; destruct (c <=? 0x5A)%N eqn:H2; simpl; auto.
  apply N.leb_le in H1, H2. auto.
Qed.

Lemma lower_wav_iff (f : pystr) :
  lower f = u "wav" ↔
  f ∈ u <$> ["wav"; "waV"; "wAv"; "wAV"; "Wav"; "WaV"; "WAv"; "WAV"]%string.
Proof.
  split.
  - destruct f as [|a [|b [|c [|? ?]]]]; try (by vm_compute).
    assert (u "wav" = [0x77; 0x61; 0x76]%N) as -> by (vm_compute; reflexivity).
    unfold lower. simpl. intros [= Ha Hb Hc].
    apply lower_char_inv in Ha, Hb, Hc.
    assert (a = 0x77 ∨ a = 0x57)%N as Ha' by lia.
    assert (b = 0x61 ∨ b = 0x41)%N as Hb' by lia.
    assert (c = 0x76 ∨ c = 0x56)%N as Hc' by lia.
    clear Ha Hb Hc.
    destruct Ha' as [-> | ->], Hb' as [-> | ->], Hc' as [-> | ->];
      apply (bool_decide_unpack _); vm_compute; exact I.
  - rewrite list_elem_of_fmap. intros (s & -> & Hs).
    rewrite !elem_of_cons, elem_of_nil in Hs.
    destruct Hs as [->|[->|[->|[->|[->|[->|[->|[->|[]]]]]]]]]; vm_compute; reflexivity.
Qed.

(** ** The validator *)

Lemma truthy_dict (m : gmap pystr json) : truthy (JDict m) = true ↔ m ≠ ∅.
Proof.
  simpl. rewrite negb_true_iff, Nat.eqb_neq. by rewrite map_size_non_empty_iff.
Qed.

Lemma lookup_nonempty (m : gmap pystr json) k v : m !! k = Some v → truthy (JDict m) = true.
Proof. intros Hk. apply truthy_dict. intros ->. by rewrite lookup_empty in Hk. Qed.

Lemma contains_inv (items : list pystr) (v : json) :
  Py.contains items v = true → ∃ s, v = JStr s ∧ s ∈ items.
Proof.
  destruct v; try done. unfold Py.contains. intros H%bool_decide_eq_true. eauto.
Qed.

Lemma first_violation_Some checks data e :
  first_violation checks data = Some e ↔
  ∃ i c, checks !! i = Some c ∧ c data = Some e ∧
         ∀ j c', (j < i)%nat → checks !! j = Some c' → c' data = None.
Proof.
  induction checks as [|c checks IH]; simpl.
  - split; [done | by intros (i & c & H & _)].
  - destruct (c data) as [e'|] eqn:Hc.
    + split.
      * intros [= ->]. exists 0%nat, c. repeat split; [done | lia].
      * intros ([|i] & c' & Hi & He & Hlt).
        -- simpl in Hi. congruence.
        -- specialize (Hlt 0%nat c ltac:(lia) eq_refl). congruence.
    + rewrite IH. split.
      * intros (i & c' & Hi & He & Hlt). exists (S i), c'. repeat split; [done..|].
        intros [|j] c'' Hj; simpl; [congruence|]. apply Hlt. lia.
      * intros ([|i] & c' & Hi & He & Hlt); simpl in Hi; [congruence|].
        exists i, c'. repeat split; [done..|].
        intros j c'' Hj. apply (Hlt (S j)). lia.
Qed.

Lemma first_violation_None checks data :
  first_violation checks data = None ↔ ∀ c, c ∈ checks → c data = None.
Proof.
  induction checks as [|c checks IH]; simpl.
  - split; [|done]. by intros _ c ?%elem_of_nil.
  - destruct (c data) eqn:Hc.
    + split; [done|]. intros H. specialize (H c ltac:(left)). congruence.
    + rewrite IH. split.
      * intros H c' [->|?]%elem_of_cons; auto.
      * intros H c' ?. apply H. by right.
Qed.

(** The validator is the ordered list of checks: it fails as the first
    check that fails, and returns the stripped text and the voice when all
    pass. *)
Lemma validate_as_checks (data : json) :
  validate_request_data data =
  match first_violation ordered_checks data with
  | Some e => Raise e
  | None => validated data
  end.
Proof.
  unfold validate_request_data, ordered_checks, first_violation, check_body.
  destruct (truthy data) eqn:Hbody; simpl; [|done].
  unfold check_text, check_length, check_voice, check_format, validated, text_of, voice_of.
  destruct data; try done.
  simpl.
  destruct (default (JStr (u "")) (m !! u "text")); try done.
  simpl.
  destruct (length (strip s) =? 0)%nat; simpl; [done|].
  destruct (Config.MAX_TEXT_LENGTH <? len (strip s)); simpl; [done|].
  destruct (Py.contains _ _); simpl; [|done].
  destruct (truthy (default JNull _)); simpl; [|done].
  destruct (Py.lower _); simpl; [|done].
  by destruct (bool_decide _).
Qed.

(** What a successful validation says about the body. *)
Lemma validate_ok_inv data text voice :
  validate_request_data data = Ok (text, voice) →
  ∃ m s v, data = JDict m ∧ default (JStr (u "")) (m !! u "text") = JStr s ∧
    text = strip s ∧ text ≠ [] ∧ len text ≤ Config.MAX_TEXT_LENGTH ∧
    voice = JStr v ∧ v ∈ Config.ALLOWED_VOICES ∧
    default (JStr (u "af_heart")) (m !! u "voice") = voice ∧
    (truthy (default JNull (m !! u "format")) = true →
     ∃ f, m !! u "format" = Some (JStr f) ∧ lower f = u "wav").
Proof.
  unfold validate_request_data.
  destruct (truthy data) eqn:Hbody; simpl; [|done].
  destruct data; try done. simpl.
  destruct (default (JStr (u "")) (m !! u "text")) eqn:Ht; try done. simpl.
  destruct (length (strip s) =? 0)%nat eqn:Hlen; simpl; [done|].
  destruct (Config.MAX_TEXT_LENGTH <? len (strip s)) eqn:Hmax; simpl; [done|].
  destruct (Py.contains _ _) eqn:Hv; simpl; [|done].
  apply contains_inv in Hv as (v & Hv & Hin).
  intros H. exists m, s, v.
  assert (text = strip s ∧ voice = JStr v ∧
          (truthy (default JNull (m !! u "format")) = true →
           ∃ f, m !! u "format" = Some (JStr f) ∧ lower f = u "wav")) as (-> & -> & Hf).
  { rewrite Hv in H.
    destruct (truthy (default JNull _)) eqn:Hfmt; simpl in H.
    - destruct (m !! u "format") as [[]|] eqn:Hm; simpl in H; try done.
      destruct (bool_decide (lower s0 = u "wav")) eqn:Hw; simpl in H; [|done].
      apply bool_decide_eq_true in Hw. injection H as <- <-. eauto.
    - injection H as <- <-. done. }
  repeat split; try done.
  - intros Hnil. rewrite Hnil in Hlen. done.
  - apply Z.ltb_ge in Hmax. done.
Qed.

Lemma validated_ok data : check_text data = None → ∃ r, validated data = Ok r.
Proof.
  unfold check_text, validated, text_of, voice_of.
  destruct data; try done. simpl.
  destruct (default (JStr (u "")) (m !! u "text")); try done. simpl. eauto.
Qed.

(** C10: the validator applies its checks in the fixed order body, text,
    length, voice, format.  It raises [e] exactly when some check of the
    ordered list fails with [e] and every check before it passes, and it
    returns exactly when all checks pass. *)
Theorem C10_first_failing_check_is_reported (data : json) :
  (∀ e, validate_request_data data = Raise e ↔
     ∃ i c, ordered_checks !! i = Some c ∧ c data = Some e ∧
            ∀ j c', (j < i)%nat → ordered_checks !! j = Some c' → c' data = None) ∧
  ((∃ r, validate_request_data data = Ok r) ↔ ∀ c, c ∈ ordered_checks → c data = None).
Proof.
  rewrite validate_as_checks.
  destruct (first_violation ordered_checks data) as [e0|] eqn:Hfirst.
  - split.
    + intros e. rewrite <-first_violation_Some, Hfirst. split; congruence.
    + rewrite <-first_violation_None, Hfirst. split; [by intros [? ?] | done].
  - destruct (validated_ok data) as [r Hr].
    { apply first_violation_None with (c := check_text) in Hfirst; [done|].
      unfold ordered_checks. set_solver. }
    rewrite Hr. split.
    + intros e. rewrite <-first_violation_Some, Hfirst. split; congruence.
    + rewrite <-first_violation_None. split; eauto.
Qed.

Example validate_hello :
  validate_request_data (body [("text", JStr (u "  Hello world "))]%string)
  = Ok (u "Hello world", JStr (u "af_heart")).
Proof. vm_compute. reflexivity. Qed.

Example validate_bad_voice :
  validate_request_data (body [("text", JStr (u "Hi")); ("voice", JStr (u "xx_invalid"))]%string)
  = Raise (BadRequest msg_invalid_voice).
Proof. vm_compute. reflexivity. Qed.

(** *** Bodies whose fields have the types of the interface *)

Lemma key_text_format : u "text" ≠ u "format".
Proof. by vm_compute. Qed.

Lemma key_voice_format : u "voice" ≠ u "format".
Proof. by vm_compute. Qed.

Lemma lower_wav : lower (u "wav") = u "wav".
Proof. by vm_compute. Qed.

Lemma validate_text_too_long (m : gmap pystr json) (s : pystr) :
  m !! u "text" = Some (JStr s) → Config.MAX_TEXT_LENGTH < len (strip s) →
  validate_request_data (JDict m) = Raise (BadRequest msg_text_too_long).
Proof.
  intros Hm Hlen. unfold validate_request_data.
  rewrite (lookup_nonempty _ _ _ Hm). simpl. rewrite Hm. simpl.
  destruct (strip s) eqn:Hs; [by vm_compute in Hlen|]. simpl.
  by apply Z.ltb_lt in Hlen as ->.
Qed.

(** With a text that is absent or a string, and a format that is absent,
    falsy or a string, the validator returns or raises [BadRequest]. *)
Lemma validate_typed (m : gmap pystr json) (s : pystr) :
  default (JStr (u "")) (m !! u "text") = JStr s →
  (∀ v, m !! u "format" = Some v → truthy v = true → ∃ f, v = JStr f) →
  (∃ r, validate_request_data (JDict m) = Ok r) ∨
  (∃ d, validate_request_data (JDict m) = Raise (BadRequest d)).
Proof.
  intros Ht Hf. unfold validate_request_data.
  destruct (truthy (JDict m)); simpl; [|eauto].
  rewrite Ht. simpl.
  destruct (length (strip s) =? 0)%nat; simpl; [eauto|].
  destruct (Config.MAX_TEXT_LENGTH <? len (strip s)); simpl; [eauto|].
  destruct (Py.contains _ _); simpl; [|eauto].
  destruct (m !! u "format") as [v|] eqn:Hv; simpl; [|eauto].
  destruct (truthy v) eqn:Htruthy; simpl; [|eauto].
  destruct (Hf v eq_refl Htruthy) as [f ->]. simpl.
  destruct (bool_decide _); simpl; eauto.
Qed.

(** A voice outside the allow-list, with a text that is absent or a
    string: the validator raises [BadRequest]. *)
Lemma validate_invalid_voice (m : gmap pystr json) (s : pystr) (v : json) :
  default (JStr (u "")) (m !! u "text") = JStr s →
  m !! u "voice" = Some v → Py.contains Config.ALLOWED_VOICES v = false →
  ∃ d, validate_request_data (JDict m) = Raise (BadRequest d).
Proof.
  intros Ht Hv Hout. unfold validate_request_data.
  rewrite (lookup_nonempty _ _ _ Hv). simpl. rewrite Ht. simpl.
  destruct (length (strip s) =? 0)%nat; simpl; [eauto|].
  destruct (Config.MAX_TEXT_LENGTH <? len (strip s)); simpl; [eauto|].
  rewrite Hv. simpl. rewrite Hout. simpl. eauto.
Qed.

(** An omitted voice is the default one. *)
Lemma validate_default_voice (m : gmap pystr json) text voice :
  m !! u "voice" = None → validate_request_data (JDict m) = Ok (text, voice) →
  voice = JStr (u "af_heart").
Proof.
  intros Hv (m' & s & v & [= <-] & _ & _ & _ & _ & _ & _ & Hvoice & _)%validate_ok_inv.
  by rewrite Hv in Hvoice.
Qed.

(** A format that is a non-empty string other than ['wav'] in any case,
    with a text that is absent or a string: the validator raises
    [BadRequest]. *)
Lemma validate_unsupported_format (m : gmap pystr json) (s f : pystr) :
  default (JStr (u "")) (m !! u "text") = JStr s →
  m !! u "format" = Some (JStr f) → f ≠ [] → lower f ≠ u "wav" →
  ∃ d, validate_request_data (JDict m) = Raise (BadRequest d).
Proof.
  intros Ht Hf Hnil Hne.
  destruct (validate_typed m s Ht) as [[[text voice] Hok]|]; [|idtac|done].
  { intros v. rewrite Hf. intros [= <-] _. eauto. }
  apply validate_ok_inv in Hok as (m' & _ & _ & [= <-] & _ & _ & _ & _ & _ & _ & _ & Hfmt).
  rewrite Hf in Hfmt. simpl in Hfmt.
  destruct f as [|c f]; [done|].
  destruct (Hfmt eq_refl) as (f' & [= <-] & Hw). done.
Qed.

(** A falsy format is accepted as ['wav'] is. *)
Lemma validate_falsy_format (m : gmap pystr json) (v : json) :
  m !! u "format" = Some v → truthy v = false →
  validate_request_data (JDict m) =
  validate_request_data (JDict (<[u "format" := JStr (u "wav")]> m)).
Proof.
  intros Hv Hfalsy. unfold validate_request_data.
  rewrite (lookup_nonempty _ _ _ Hv).
  rewrite (lookup_nonempty (<[u "format" := JStr (u "wav")]> m) (u "format") (JStr (u "wav")))
    by apply lookup_insert_eq.
  simpl.
  rewrite !lookup_insert_eq, !lookup_insert_ne, Hv
    by (apply not_eq_sym; first [apply key_text_format | apply key_voice_format]).
  simpl. rewrite Hfalsy, lower_wav. simpl.
  by rewrite bool_decide_eq_true_2.
Qed.

(** ** The invoker and the handlers *)

Section ServerProperties.

Context (getcwd : pystr) (uuid4 : nat → pystr).
Context (subprocess_run :
  list pystr → Z → nat → gmap pystr (list N) → result CompletedProcess * gmap pystr (list N)).

Ltac answered := eexists _, _; split; [reflexivity|]; simpl; repeat split; done.

Ltac run_monad :=
  unfold mbind, M_bind, mret, M_ret, lift, try_except, logger, os_path_exists; simpl.

(** The invoker makes one call of [subprocess.run], with a timeout of 60,
    and answers [True] exactly when that call returns with exit status 0
    and the output file is there afterwards. *)
Lemma run_kokoro_command_spec (text voice output_path : pystr) (w : World) :
  let argv := kokoro_argv text voice output_path in
  let out := subprocess_run argv 60 (length (invocations w)) (files w) in
  ∃ lg,
    run_kokoro_command subprocess_run text (JStr voice) output_path w =
    (Ok (succeeded out output_path),
     {| files := out.2; uuids := uuids w;
        invocations := invocations w ++ [(argv, 60)]; logs := logs w ++ lg |}).
Proof.
  unfold run_kokoro_command, run, spawn, kokoro_cmd, kokoro_argv, succeeded. run_monad.
  destruct (subprocess_run _ _ _ _) as [[p|e] fs]; simpl.
  - destruct (returncode p =? 0); simpl.
    + destruct (bool_decide _); simpl; rewrite <-?app_assoc; eauto.
    + rewrite <-app_assoc. eauto.
  - destruct e; simpl; rewrite <-app_assoc; eauto.
Qed.

(** The invoker never raises, whatever it is given. *)
Lemma run_kokoro_command_total (text : pystr) (voice : json) (output_path : pystr) (w : World) :
  ∃ b w', run_kokoro_command subprocess_run text voice output_path w = (Ok b, w').
Proof.
  unfold run_kokoro_command, run, spawn, kokoro_cmd. run_monad.
  destruct voice; simpl; eauto.
  destruct (subprocess_run _ _ _ _) as [[p|e] fs]; simpl.
  - destruct (returncode p =? 0); simpl; eauto.
    destruct (bool_decide _); simpl; eauto.
  - destruct e; simpl; eauto.
Qed.

(** C1: on validated input the invoker returns, without raising, and its
    answer is success exactly when the subprocess returned with exit status
    zero and the output file exists in the file system the subprocess left;
    a non-zero status, a missing file, a timeout or any other exception of
    the call gives failure. *)
Theorem C1_success_iff_exit_zero_and_file (text voice output_path : pystr) (w : World) :
  let out := subprocess_run (kokoro_argv text voice output_path) 60
               (length (invocations w)) (files w) in
  ∃ b w',
    run_kokoro_command subprocess_run text (JStr voice) output_path w = (Ok b, w') ∧
    files w' = out.2 ∧
    (b = true ↔ ∃ p, out.1 = Ok p ∧ returncode p = 0 ∧ is_Some (out.2 !! output_path)) ∧
    (b = false ↔ (∀ p, out.1 = Ok p → returncode p ≠ 0 ∨ out.2 !! output_path = None)).
Proof.
  intros out.
  destruct (run_kokoro_command_spec text voice output_path w) as [lg Hrun].
  eexists _, _. split; [exact Hrun|]. split; [done|].
  fold out. unfold succeeded. destruct (out.1) as [p|e]; simpl.
  - rewrite andb_true_iff, andb_false_iff, Z.eqb_eq, Z.eqb_neq,
      bool_decide_eq_true, bool_decide_eq_false, <-eq_None_not_Some.
    split.
    + split; [intros []; eauto | intros (? & [= <-] & ? & ?); done].
    + split; [intros ? ? [= <-]; done | eauto].
  - split; split; try done.
    intros (? & ? & _). done.
Qed.

Lemma succeeded_file out output_path :
  succeeded out output_path = true → is_Some (out.2 !! output_path).
Proof.
  unfold succeeded. destruct (out.1); [|done].
  by intros [_ ?%bool_decide_eq_true]%andb_true_iff.
Qed.

(** *** What a synthesis handler does, by the outcome of validation *)

Lemma handle_get_json_raises ep request e w :
  synthesizes ep = true → get_json request = Raise e →
  handle getcwd uuid4 subprocess_run ep request w =
  on_exception (match ep with Synthesize => "synthesize_text" | _ => "synthesize_stream" end) e w.
Proof.
  intros Hep Hjson.
  destruct ep; try done; simpl; unfold synthesize_text, synthesize_stream; run_monad;
    rewrite Hjson; simpl; done.
Qed.

Lemma handle_validation_raises ep request data e w :
  synthesizes ep = true → get_json request = Ok data →
  validate_request_data data = Raise e →
  handle getcwd uuid4 subprocess_run ep request w =
  on_exception (match ep with Synthesize => "synthesize_text" | _ => "synthesize_stream" end) e w.
Proof.
  intros Hep Hjson Hval.
  destruct ep; try done; simpl; unfold synthesize_text, synthesize_stream; run_monad;
    rewrite Hjson, Hval; simpl; done.
Qed.

(** A validation failure of the client-error kind: status 400, and the
    world is left as it was. *)
Lemma handle_bad_request ep request data d w :
  synthesizes ep = true → get_json request = Ok data →
  validate_request_data data = Raise (BadRequest d) →
  handle getcwd uuid4 subprocess_run ep request w = (Ok (invalid_request (BadRequest d)), w).
Proof.
  intros Hep Hjson Hval. by rewrite (handle_validation_raises _ _ _ _ _ Hep Hjson Hval).
Qed.

(** A validated request: one identifier is drawn, the tool is called once
    with the stripped text, the voice and the path made from the
    identifier, and a failed synthesis is answered with status 500. *)
Lemma handle_validated ep request data text voice w :
  synthesizes ep = true → get_json request = Ok data →
  validate_request_data data = Ok (text, JStr voice) →
  let output_path := output_path_of getcwd (uuid4 (uuids w)) in
  let argv := kokoro_argv text voice output_path in
  let out := subprocess_run argv 60 (length (invocations w)) (files w) in
  ∃ response w',
    handle getcwd uuid4 subprocess_run ep request w = (Ok response, w') ∧
    uuids w' = S (uuids w) ∧
    invocations w' = invocations w ++ [(argv, 60)] ∧
    (succeeded out output_path = false → response = synthesis_failed) ∧
    (succeeded out output_path = true → status response = 200).
Proof.
  intros Hep Hjson Hval output_path argv out.
  pose (w1 := {| files := files w; uuids := S (uuids w); invocations := invocations w;
                 logs := logs w |}).
  destruct (run_kokoro_command_spec text voice output_path w1) as [lg Hrun].
  simpl in Hrun. fold argv out in Hrun.
  destruct ep; try done; simpl; unfold synthesize_text, synthesize_stream; run_monad;
    rewrite Hjson, Hval; simpl; unfold new_uuid; simpl;
    fold output_path w1; rewrite Hrun; clear Hrun;
    (destruct (succeeded out output_path) eqn:Hok; simpl;
     [apply succeeded_file in Hok as [audio Hfile] | answered]).
  - unfold send_file, read_file. run_monad. rewrite Hfile. simpl. answered.
  - unfold read_file, os_unlink. simpl. rewrite Hfile. simpl. rewrite Hfile. simpl.
    answered.
Qed.

Lemma on_exception_answers name e w :
  ∃ response w', on_exception name e w = (Ok response, w') ∧
    files w' = files w ∧ uuids w' = uuids w ∧ invocations w' = invocations w ∧
    status response = (if is_BadRequest e then 400 else 500).
Proof. destruct e; simpl; eexists _, _; split; try reflexivity; done. Qed.

(** Every handler answers, and a synthesis handler either leaves the
    generator and the call record alone or draws one identifier and makes
    one call, for a validated request. *)
Lemma handle_cases ep request w :
  ∃ response w',
    handle getcwd uuid4 subprocess_run ep request w = (Ok response, w') ∧
    ((uuids w' = uuids w ∧ invocations w' = invocations w) ∨
     (∃ data text voice,
        synthesizes ep = true ∧ get_json request = Ok data ∧
        validate_request_data data = Ok (text, JStr voice) ∧
        uuids w' = S (uuids w) ∧
        invocations w' = invocations w ++
          [(kokoro_argv text voice (output_path_of getcwd (uuid4 (uuids w))), 60)])).
Proof.
  destruct (synthesizes ep) eqn:Hep.
  - destruct (get_json request) as [data|e] eqn:Hjson.
    + destruct (validate_request_data data) as [[text voice]|e] eqn:Hval.
      * destruct (validate_ok_inv _ _ _ Hval) as (_ & _ & v & _ & _ & _ & _ & _ & -> & _).
        destruct (handle_validated ep request data text v w Hep Hjson Hval)
          as (response & w' & Hrun & Hu & Hinv & _).
        exists response, w'. split; [done|]. right. eauto 10.
      * rewrite (handle_validation_raises _ _ _ _ _ Hep Hjson Hval).
        destruct (on_exception_answers
                    (match ep with Synthesize => "synthesize_text" | _ => "synthesize_stream" end)
                    e w) as (response & w' & -> & _ & ? & ? & _).
        eauto 10.
    + rewrite (handle_get_json_raises _ _ _ _ Hep Hjson).
      destruct (on_exception_answers
                  (match ep with Synthesize => "synthesize_text" | _ => "synthesize_stream" end)
                  e w) as (response & w' & -> & _ & ? & ? & _).
      eauto 10.
  - destruct ep; try done; simpl; eauto 10.
Qed.

(** C2 (the code departs from the claim): a body whose text is the number
    123 does not pass validation and is not reported as a client error:
    the validator raises [AttributeError], and both handlers answer with
    the internal-error response, status 500. *)
Theorem C2_non_string_text_is_a_server_error (w : World) :
  let data := body [("text", JInt 123)]%string in
  validate_request_data data = Raise (no_attribute (JInt 123) "strip") ∧
  (synthesize_text getcwd uuid4 subprocess_run {| get_json := Ok data |} w).1
    = Ok internal_server_error ∧
  (synthesize_stream getcwd uuid4 subprocess_run {| get_json := Ok data |} w).1
    = Ok internal_server_error ∧
  status internal_server_error = 500.
Proof.
  intros data.
  assert (validate_request_data data = Raise (no_attribute (JInt 123) "strip")) as Hval
    by (vm_compute; reflexivity).
  split; [done|].
  pose proof (handle_validation_raises Synthesize {| get_json := Ok data |} data _ w
                eq_refl eq_refl Hval) as H1.
  pose proof (handle_validation_raises SynthesizeStream {| get_json := Ok data |} data _ w
                eq_refl eq_refl Hval) as H2.
  simpl in H1, H2. rewrite H1, H2. repeat split; reflexivity.
Qed.

(** C5 (the code departs from the claim): a body with an invalid voice
    and the number 5 as text is not answered with a client error: the
    validator raises [AttributeError] before it looks at the voice, and both
    handlers answer with status 500. *)
Theorem C5_invalid_voice_after_non_string_text (w : World) :
  let data := body [("text", JInt 5); ("voice", JStr (u "xx_invalid"))]%string in
  Py.contains Config.ALLOWED_VOICES (JStr (u "xx_invalid")) = false ∧
  validate_request_data data = Raise (no_attribute (JInt 5) "strip") ∧
  (synthesize_text getcwd uuid4 subprocess_run {| get_json := Ok data |} w).1
    = Ok internal_server_error ∧
  (synthesize_stream getcwd uuid4 subprocess_run {| get_json := Ok data |} w).1
    = Ok internal_server_error ∧
  status internal_server_error = 500.
Proof.
  intros data.
  assert (validate_request_data data = Raise (no_attribute (JInt 5) "strip")) as Hval
    by (vm_compute; reflexivity).
  split; [vm_compute; reflexivity|]. split; [done|].
  pose proof (handle_validation_raises Synthesize {| get_json := Ok data |} data _ w
                eq_refl eq_refl Hval) as H1.
  pose proof (handle_validation_raises SynthesizeStream {| get_json := Ok data |} data _ w
                eq_refl eq_refl Hval) as H2.
  simpl in H1, H2. rewrite H1, H2. repeat split; reflexivity.
Qed.

(** C3 (amended): when the text of a request, with surrounding white space
    stripped, is longer than the configured maximum of 10000 characters,
    validation fails with the length error and the handler answers 400,
    leaving the world as it was. *)
Theorem C3_stripped_text_over_maximum ep request m s w :
  synthesizes ep = true → get_json request = Ok (JDict m) →
  m !! u "text" = Some (JStr s) →
  Config.MAX_TEXT_LENGTH < len (strip s) →
  Config.MAX_TEXT_LENGTH = 10000 ∧
  validate_request_data (JDict m) = Raise (BadRequest msg_text_too_long) ∧
  ∃ response,
    handle getcwd uuid4 subprocess_run ep request w = (Ok response, w) ∧
    status response = 400.
Proof.
  intros Hep Hjson Hm Hlen. split; [done|].
  pose proof (validate_text_too_long m s Hm Hlen) as Hval. split; [done|].
  rewrite (handle_bad_request _ _ _ _ _ Hep Hjson Hval). eauto.
Qed.

(** C4 (amended): for a request whose text is absent or a string and whose
    format field is present: a falsy value (empty string, null, false, zero,
    empty list or object) is accepted as ['wav'] is; with a non-empty string,
    validation succeeds only if the value is ['wav'] up to case, and any
    other non-empty string is answered with 400. *)
Theorem C4_nonempty_format_must_be_wav ep request m s v w :
  synthesizes ep = true → get_json request = Ok (JDict m) →
  default (JStr (u "")) (m !! u "text") = JStr s →
  m !! u "format" = Some v →
  (truthy v = false →
   validate_request_data (JDict m) =
   validate_request_data (JDict (<[u "format" := JStr (u "wav")]> m))) ∧
  (∀ f, v = JStr f → f ≠ [] →
     (∀ r, validate_request_data (JDict m) = Ok r → lower f = u "wav") ∧
     (lower f ≠ u "wav" →
      ∃ d response,
        validate_request_data (JDict m) = Raise (BadRequest d) ∧
        handle getcwd uuid4 subprocess_run ep request w = (Ok response, w) ∧
        status response = 400)).
Proof.
  intros Hep Hjson Ht Hv. split; [by apply validate_falsy_format|].
  intros f -> Hnil. split.
  - intros [text voice] Hok. destruct (decide (lower f = u "wav")) as [|Hne]; [done|].
    destruct (validate_unsupported_format m s f Ht Hv Hnil Hne) as [d Hd]. congruence.
  - intros Hne. destruct (validate_unsupported_format m s f Ht Hv Hnil Hne) as [d Hd].
    exists d. rewrite (handle_bad_request _ _ _ _ _ Hep Hjson Hd). eauto.
Qed.

(** C6: a validated request leads to exactly one call of [subprocess.run],
    with a timeout of 60 seconds; when that call runs out of time
    ([TimeoutExpired]) the invoker answers failure after that one call, and
    the handler answers with status 500. *)
Theorem C6_single_call_bounded_by_60_seconds ep request data text voice w :
  synthesizes ep = true → get_json request = Ok data →
  validate_request_data data = Ok (text, voice) →
  ∃ v response w',
    voice = JStr v ∧
    handle getcwd uuid4 subprocess_run ep request w = (Ok response, w') ∧
    invocations w' = invocations w ++
      [(kokoro_argv text v (output_path_of getcwd (uuid4 (uuids w))), 60)] ∧
    (∀ msg fs,
       subprocess_run (kokoro_argv text v (output_path_of getcwd (uuid4 (uuids w)))) 60
         (length (invocations w)) (files w) = (Raise (TimeoutExpired msg), fs) →
       response = synthesis_failed ∧ status response = 500) ∧
    (∀ output_path w0 msg fs,
       subprocess_run (kokoro_argv text v output_path) 60
         (length (invocations w0)) (files w0) = (Raise (TimeoutExpired msg), fs) →
       ∃ w1, run_kokoro_command subprocess_run text voice output_path w0 = (Ok false, w1) ∧
             invocations w1 = invocations w0 ++ [(kokoro_argv text v output_path, 60)]).
Proof.
  intros Hep Hjson Hval.
  destruct (validate_ok_inv _ _ _ Hval) as (_ & _ & v & _ & _ & _ & _ & _ & -> & _).
  destruct (handle_validated ep request data text v w Hep Hjson Hval)
    as (response & w' & Hrun & _ & Hinv & Hfail & _).
  exists v, response, w'. repeat split; try done.
  - apply Hfail. unfold succeeded. by rewrite H.
  - rewrite Hfail; [done|]. unfold succeeded. by rewrite H.
  - intros output_path w0 msg fs Hout.
    destruct (run_kokoro_command_spec text v output_path w0) as [lg Hcmd].
    rewrite Hcmd. unfold succeeded. rewrite Hout. simpl. eauto.
Qed.

(** C9: for a request whose text is a string, the text the validator
    returns is the input with the white space at both ends removed, and
    nothing else; the length limit is applied to that stripped text; and the
    text argument of any call of the tool the handler makes is that stripped
    text. *)
Theorem C9_validated_text_is_stripped ep request m s w :
  synthesizes ep = true → get_json request = Ok (JDict m) →
  m !! u "text" = Some (JStr s) →
  (∃ pre post, s = pre ++ strip s ++ post ∧
     Forall (λ c, isspace c = true) pre ∧ Forall (λ c, isspace c = true) post ∧
     (∀ c, head (strip s) = Some c → isspace c = false) ∧
     (∀ c, last (strip s) = Some c → isspace c = false)) ∧
  (∀ text voice, validate_request_data (JDict m) = Ok (text, voice) → text = strip s) ∧
  (first_violation ordered_checks (JDict m) = None →
   ∃ voice, validate_request_data (JDict m) = Ok (strip s, voice)) ∧
  (validate_request_data (JDict m) = Raise (BadRequest msg_text_too_long) ↔
   Config.MAX_TEXT_LENGTH < len (strip s)) ∧
  ∃ response w',
    handle getcwd uuid4 subprocess_run ep request w = (Ok response, w') ∧
    (invocations w' = invocations w ∨
     ∃ voice output_path,
       invocations w' = invocations w ++ [(kokoro_argv (strip s) voice output_path, 60)]).
Proof.
  intros Hep Hjson Hm.
  assert (∀ text voice, validate_request_data (JDict m) = Ok (text, voice) → text = strip s)
    as Hstripped.
  { intros text voice (m' & s' & _ & [= <-] & Ht & -> & _)%validate_ok_inv.
    rewrite Hm in Ht. simpl in Ht. by injection Ht as <-. }
  split; [apply strip_spec|]. split; [done|]. split; [|split].
  - intros Hnone. rewrite validate_as_checks, Hnone.
    unfold validated, text_of, voice_of. simpl. rewrite Hm. simpl. eauto.
  - split; [|by apply validate_text_too_long].
    unfold validate_request_data.
    rewrite (lookup_nonempty _ _ _ Hm). simpl. rewrite Hm. simpl.
    destruct (length (strip s) =? 0)%nat; simpl.
    { intros [=]. }
    destruct (Config.MAX_TEXT_LENGTH <? len (strip s)) eqn:Hmax; simpl.
    { intros _. by apply Z.ltb_lt. }
    destruct (Py.contains _ _); simpl.
    2:{ intros [=]. }
    destruct (default JNull (m !! u "format")); simpl;
      repeat (case_match; simpl; try done); intros [=].
  - destruct (handle_cases ep request w)
      as (response & w' & Hrun & [[_ Hsame]|(data & text & voice & _ & Hd & Hval & _ & Hinv)]).
    + eauto.
    + exists response, w'. split; [done|]. right.
      rewrite Hjson in Hd. injection Hd as <-.
      rewrite (Hstripped _ _ Hval) in Hinv. eauto.
Qed.

(** C8: [GET /voices] is answered with status 200 and a JSON object of
    exactly three fields: the allow-list the validator checks voices
    against (23 voices), the default voice [af_heart] and the supported
    format [wav]; the handler leaves the world as it was. *)
Theorem C8_voices_listing (request : Request) (w : World) :
  ∃ m,
    handle getcwd uuid4 subprocess_run Voices request w =
      (Ok {| payload := Json (JDict m); status := 200; on_close := None |}, w) ∧
    m !! u "voices" = Some (JList (JStr <$> Config.ALLOWED_VOICES)) ∧
    m !! u "default" = Some (JStr (u "af_heart")) ∧
    m !! u "supported_format" = Some (JStr (u "wav")) ∧
    size m = 3%nat ∧
    length Config.ALLOWED_VOICES = 23%nat ∧
    (∀ v, JStr v ∈ JStr <$> Config.ALLOWED_VOICES ↔
          Py.contains Config.ALLOWED_VOICES (JStr v) = true) ∧
    Py.contains Config.ALLOWED_VOICES (JStr (u "af_heart")) = true.
Proof.
  eexists. split; [reflexivity|].
  repeat split; try (vm_compute; reflexivity).
  - intros (? & [= <-] & ?)%list_elem_of_fmap. by apply bool_decide_eq_true.
  - intros ?%bool_decide_eq_true. by apply list_elem_of_fmap_2.
Qed.

(** *** Artifact paths *)

Lemma output_path_of_embeds :
  ∃ prefix, ∀ file_id, output_path_of getcwd file_id = prefix ++ file_id ++ u ".wav".
Proof.
  assert (u "kokoro_tts_" = 0x6B%N :: u "okoro_tts_") as Hk by (vm_compute; reflexivity).
  unfold output_path_of, os_path_join.
  destruct (Nat.eqb (length (TEMP_DIR getcwd)) 0 || endswith_sep (TEMP_DIR getcwd)).
  - exists (TEMP_DIR getcwd ++ u "kokoro_tts_"). intros file_id.
    rewrite Hk. simpl. by rewrite <-!app_assoc.
  - exists (TEMP_DIR getcwd ++ [sep] ++ u "kokoro_tts_"). intros file_id.
    rewrite Hk. simpl. by rewrite <-!app_assoc.
Qed.

Lemma output_path_of_inj a b :
  output_path_of getcwd a = output_path_of getcwd b → a = b.
Proof.
  destruct output_path_of_embeds as [prefix Hp]. rewrite !Hp.
  intros H%app_inv_head. by apply app_inv_tail in H.
Qed.

(** Requests served in a row: every one is answered, and the calls of the
    tool they add carry the paths made from identifiers drawn at distinct
    positions of the generator. *)
Lemma serve_calls requests : ∀ w,
  ∃ responses w' calls ids,
    serve getcwd uuid4 subprocess_run requests w = (Ok responses, w') ∧
    length responses = length requests ∧
    (uuids w ≤ uuids w')%nat ∧
    invocations w' = invocations w ++ calls ∧
    output_arg <$> calls = (λ i, Some (output_path_of getcwd (uuid4 i))) <$> ids ∧
    Forall (λ i, uuids w ≤ i < uuids w')%nat ids ∧ NoDup ids.
Proof.
  induction requests as [|[ep request] rest IH]; intros w.
  - exists [], w, [], []. simpl. rewrite app_nil_r. repeat split; try done. constructor.
  - destruct (handle_cases ep request w) as (response & w1 & Hrun & Hcases).
    destruct (IH w1) as (responses & w' & calls & ids & Hrest & Hlen & Hle & Hinv & Hout & Hids & Hnd).
    simpl. unfold mbind, M_bind, mret, M_ret. rewrite Hrun, Hrest.
    destruct Hcases as [[Hu Hsame]|(data & text & voice & _ & _ & _ & Hu & Hcall)].
    + exists (response :: responses), w', calls, ids. rewrite Hu, Hsame in *.
      repeat split; simpl; try done. by rewrite Hlen.
    + exists (response :: responses), w',
        ((kokoro_argv text voice (output_path_of getcwd (uuid4 (uuids w))), 60) :: calls),
        (uuids w :: ids).
      rewrite Hu in *. rewrite Hcall in Hinv.
      repeat split; simpl; try done.
      * by rewrite Hlen.
      * lia.
      * by rewrite Hinv, <-app_assoc.
      * f_equal. exact Hout.
      * constructor; [lia|]. eapply Forall_impl; [exact Hids|]. simpl. lia.
      * apply NoDup_cons. split; [|done].
        intros Hin. rewrite Forall_forall in Hids. specialize (Hids _ Hin). lia.
Qed.

(** C7: when the identifier generator never returns the same identifier
    twice, the artifact paths handed to the tool while any sequence of
    requests is served, on either endpoint, are pairwise distinct; each is
    a fixed prefix, the identifier drawn for the request, and [.wav]. *)
Theorem C7_artifact_paths_never_reused requests w :
  (∀ i j, uuid4 i = uuid4 j → i = j) →
  ∃ responses w' calls ids,
    serve getcwd uuid4 subprocess_run requests w = (Ok responses, w') ∧
    invocations w' = invocations w ++ calls ∧
    output_arg <$> calls = (λ i, Some (output_path_of getcwd (uuid4 i))) <$> ids ∧
    (∃ prefix, ∀ file_id, output_path_of getcwd file_id = prefix ++ file_id ++ u ".wav") ∧
    NoDup (output_arg <$> calls).
Proof.
  intros Hfresh.
  destruct (serve_calls requests w)
    as (responses & w' & calls & ids & Hrun & _ & _ & Hinv & Hout & _ & Hnd).
  exists responses, w', calls, ids. repeat split; try done.
  - apply output_path_of_embeds.
  - rewrite Hout. apply NoDup_fmap_2; [|done].
    intros i j [= Hij%output_path_of_inj]. by apply Hfresh.
Qed.

End ServerProperties.

(** ** The theorems at concrete requests *)

Lemma demo_uuid4_fresh i j : Demo.uuid4 i = Demo.uuid4 j → i = j.
Proof.
  unfold Demo.uuid4. intros H%(f_equal length).
  rewrite !length_replicate in H. lia.
Qed.

(** C3, as first stated, fails: a text of 10001 characters, the letter [a]
    and 10000 spaces, passes validation as [a], and the request is answered
    with 200. *)
Lemma C3_counterexample_padded_text :
  let text := u "a" ++ replicate (Z.to_nat 10000) 0x20%N in
  Config.MAX_TEXT_LENGTH < len text ∧
  validate_request_data (body [("text", JStr text)]%string) = Ok (u "a", JStr (u "af_heart")) ∧
  status <$> (synthesize_text Demo.cwd Demo.uuid4 Demo.kokoro_ok
                (Demo.post [("text", JStr text)]%string) Demo.start).1 = Ok 200.
Proof. vm_compute. repeat split; reflexivity. Qed.

(** C3 (amended) at a text of 10001 letters. *)
Lemma C3_witness_long_text :
  let text := replicate (Z.to_nat 10001) 0x61%N in
  let m : gmap pystr json := {[ u "text" := JStr text ]} in
  let request := {| get_json := Ok (JDict m) |} in
  (m !! u "text" = Some (JStr text) ∧ Config.MAX_TEXT_LENGTH < len (strip text)) ∧
  (Config.MAX_TEXT_LENGTH = 10000 ∧
   validate_request_data (JDict m) = Raise (BadRequest msg_text_too_long) ∧
   ∃ response,
     handle Demo.cwd Demo.uuid4 Demo.kokoro_ok SynthesizeStream request Demo.start
       = (Ok response, Demo.start) ∧
     status response = 400).
Proof.
  intros text m request.
  assert (m !! u "text" = Some (JStr text)) as Hm by (vm_compute; reflexivity).
  assert (Config.MAX_TEXT_LENGTH < len (strip text)) as Hlen by (vm_compute; reflexivity).
  split; [by split|].
  exact (C3_stripped_text_over_maximum Demo.cwd Demo.uuid4 Demo.kokoro_ok
           SynthesizeStream request m text Demo.start eq_refl eq_refl Hm Hlen).
Defined.

(** C4, as first stated, fails: with the empty string as format, which is
    not ['wav'] in any case, validation succeeds and the request is
    answered with 200. *)
Lemma C4_counterexample_empty_format :
  let fields := [("text", JStr (u "Hi")); ("format", JStr (u ""))]%string in
  lower (u "") ≠ u "wav" ∧
  validate_request_data (body fields) = Ok (u "Hi", JStr (u "af_heart")) ∧
  status <$> (synthesize_text Demo.cwd Demo.uuid4 Demo.kokoro_ok
                (Demo.post fields) Demo.start).1 = Ok 200.
Proof. vm_compute. repeat split; done. Qed.

(** C4 (amended) at the format [MP3]. *)
Lemma C4_witness_mp3 :
  let m : gmap pystr json :=
    list_to_map [(u "text", JStr (u "Hi")); (u "format", JStr (u "MP3"))] in
  let request := {| get_json := Ok (JDict m) |} in
  (default (JStr (u "")) (m !! u "text") = JStr (u "Hi") ∧
   m !! u "format" = Some (JStr (u "MP3")) ∧ u "MP3" ≠ [] ∧ lower (u "MP3") ≠ u "wav") ∧
  ∃ d response,
    validate_request_data (JDict m) = Raise (BadRequest d) ∧
    handle Demo.cwd Demo.uuid4 Demo.kokoro_ok Synthesize request Demo.start
      = (Ok response, Demo.start) ∧
    status response = 400.
Proof.
  intros m request.
  assert (default (JStr (u "")) (m !! u "text") = JStr (u "Hi")) as Ht
    by (vm_compute; reflexivity).
  assert (m !! u "format" = Some (JStr (u "MP3"))) as Hf by (vm_compute; reflexivity).
  assert (u "MP3" ≠ []) as Hnil by (vm_compute; discriminate).
  assert (lower (u "MP3") ≠ u "wav") as Hne by (vm_compute; discriminate).
  split; [done|].
  exact (proj2 (proj2 (C4_nonempty_format_must_be_wav Demo.cwd Demo.uuid4 Demo.kokoro_ok
                         Synthesize request m (u "Hi") (JStr (u "MP3")) Demo.start
                         eq_refl eq_refl Ht Hf) (u "MP3") eq_refl Hnil) Hne).
Defined.

(** C6 at a request served by a tool that runs out of time. *)
Lemma C6_witness_slow_tool :
  let request := Demo.post [("text", JStr (u "Hello world"))]%string in
  let data := body [("text", JStr (u "Hello world"))]%string in
  validate_request_data data = Ok (u "Hello world", JStr (u "af_heart")) ∧
  ∃ response w',
    handle Demo.cwd Demo.uuid4 Demo.kokoro_slow Synthesize request Demo.start
      = (Ok response, w') ∧
    length (invocations w') = 1%nat ∧ snd <$> invocations w' = [60] ∧
    status response = 500.
Proof.
  intros request data.
  assert (validate_request_data data = Ok (u "Hello world", JStr (u "af_heart"))) as Hval
    by (vm_compute; reflexivity).
  split; [exact Hval|].
  destruct (C6_single_call_bounded_by_60_seconds Demo.cwd Demo.uuid4 Demo.kokoro_slow
              Synthesize request data (u "Hello world") (JStr (u "af_heart")) Demo.start
              eq_refl eq_refl Hval)
    as (v & response & w' & _ & Hrun & Hinv & Hslow & _).
  exists response, w'. split; [exact Hrun|]. rewrite Hinv.
  repeat split; try reflexivity.
  exact (proj2 (Hslow _ _ eq_refl)).
Defined.

(** C7 at three requests on the two endpoints, with identifiers that
    never repeat. *)
Lemma C7_witness_three_requests :
  let hello := Demo.post [("text", JStr (u "Hello world"))]%string in
  let requests := [(Synthesize, hello); (SynthesizeStream, hello); (Synthesize, hello)] in
  ∃ responses w' calls ids,
    serve Demo.cwd Demo.uuid4 Demo.kokoro_ok requests Demo.start = (Ok responses, w') ∧
    invocations w' = invocations Demo.start ++ calls ∧
    output_arg <$> calls =
      (λ i, Some (output_path_of Demo.cwd (Demo.uuid4 i))) <$> ids ∧
    (∃ prefix, ∀ file_id,
       output_path_of Demo.cwd file_id = prefix ++ file_id ++ u ".wav") ∧
    NoDup (output_arg <$> calls).
Proof.
  intros hello requests.
  exact (C7_artifact_paths_never_reused Demo.cwd Demo.uuid4 Demo.kokoro_ok requests
           Demo.start demo_uuid4_fresh).
Defined.

(** C9 at a text with white space on both sides. *)
Lemma C9_witness_padded_hello :
  let s := u "  Hello world " in
  let m : gmap pystr json := {[ u "text" := JStr s ]} in
  let request := {| get_json := Ok (JDict m) |} in
  m !! u "text" = Some (JStr s) ∧
  strip s = u "Hello world" ∧
  (∀ text voice, validate_request_data (JDict m) = Ok (text, voice) → text = strip s) ∧
  (first_violation ordered_checks (JDict m) = None →
   ∃ voice, validate_request_data (JDict m) = Ok (strip s, voice)) ∧
  ∃ response w',
    handle Demo.cwd Demo.uuid4 Demo.kokoro_ok Synthesize request Demo.start
      = (Ok response, w') ∧
    (invocations w' = invocations Demo.start ∨
     ∃ voice output_path,
       invocations w' = invocations Demo.start ++
                        [(kokoro_argv (strip s) voice output_path, 60)]).
Proof.
  intros s m request.
  assert (m !! u "text" = Some (JStr s)) as Hm by (vm_compute; reflexivity).
  split; [exact Hm|]. split; [vm_compute; reflexivity|].
  destruct (C9_validated_text_is_stripped Demo.cwd Demo.uuid4 Demo.kokoro_ok
              Synthesize request m s Demo.start eq_refl eq_refl Hm)
    as (_ & Hret & Hok & _ & Hcall).
  exact (conj Hret (conj Hok Hcall)).
Defined.

(** C10 at the example of the claim: an empty text and an invalid voice
    fail two checks, and the text error is the one reported. *)
Lemma C10_witness_empty_text_invalid_voice :
  let data := body [("text", JStr (u "   ")); ("voice", JStr (u "xx_invalid"))]%string in
  check_text data = Some (BadRequest msg_text_required) ∧
  check_voice data = Some (BadRequest msg_invalid_voice) ∧
  validate_request_data data = Raise (BadRequest msg_text_required).
Proof.
  intros data. split; [vm_compute; reflexivity|]. split; [vm_compute; reflexivity|].
  apply (proj2 (proj1 (C10_first_failing_check_is_reported data)
                  (BadRequest msg_text_required))).
  exists 1%nat, check_text. split; [reflexivity|]. split; [vm_compute; reflexivity|].
  intros [|j] c' Hj; [|lia]. intros [= <-]. vm_compute. reflexivity.
Defined.

(** The scenarios of the specification, on the demonstration platform. *)
Example scenario_hello_world :
  status <$> (synthesize_text Demo.cwd Demo.uuid4 Demo.kokoro_ok
     (Demo.post [("text", JStr (u "Hello world")); ("voice", JStr (u "af_heart"))]%string)
     Demo.start).1 = Ok 200.
Proof. vm_compute. reflexivity. Qed.

Example scenario_empty_text :
  status <$> (synthesize_text Demo.cwd Demo.uuid4 Demo.kokoro_ok
     (Demo.post [("text", JStr (u ""))]%string) Demo.start).1 = Ok 400.
Proof. vm_compute. reflexivity. Qed.

Example scenario_silent_tool :
  status <$> (synthesize_stream Demo.cwd Demo.uuid4 Demo.kokoro_silent
     (Demo.post [("text", JStr (u "Hello world"))]%string) Demo.start).1 = Ok 500.
Proof. vm_compute. reflexivity. Qed.

Example lower_mixed_case : lower (u "WaV") = u "wav".
Proof. vm_compute. reflexivity. Qed.

(** The clean-up of the download variant: once the response is closed, the
    artifact is gone. *)
Example scenario_cleanup :
  let request := Demo.post [("text", JStr (u "Hello world"))]%string in
  match synthesize_text Demo.cwd Demo.uuid4 Demo.kokoro_ok request Demo.start with
  | (Ok response, w) =>
      size (files w) = 1%nat ∧ files (close response w).2 = ∅
  | _ => False
  end.
Proof. vm_compute. split; reflexivity. Qed.

(** * Further properties of the validator *)

Lemma lstrip_id (t : pystr) :
  (∀ c, head t = Some c → isspace c = false) → lstrip t = t.
Proof. destruct t as [|c t]; simpl; [done|]. intros H. by rewrite (H c eq_refl). Qed.

Lemma rstrip_id (t : pystr) :
  (∀ c, last t = Some c → isspace c = false) → rstrip t = t.
Proof.
  intros H. unfold rstrip. rewrite lstrip_id; [apply reverse_involutive|].
  intros c. rewrite head_reverse. apply H.
Qed.

Lemma strip_idempotent (s : pystr) : strip (strip s) = strip s.
Proof.
  destruct (strip_spec s) as (pre & post & _ & _ & _ & Hhead & Hlast).
  unfold strip at 1. rewrite lstrip_id by done. by apply rstrip_id.
Qed.

Lemma strip_nil_iff (s : pystr) : strip s = [] ↔ Forall (λ c, isspace c = true) s.
Proof.
  split.
  - intros Hnil. destruct (strip_spec s) as (pre & post & Hs & Hpre & Hpost & _).
    rewrite Hs, Hnil. simpl. by apply Forall_app.
  - intros Hall. assert (lstrip s = []) as Hl.
    { induction Hall as [|c s Hc _ IH]; simpl; [done|]. by rewrite Hc. }
    unfold strip. by rewrite Hl.
Qed.

Lemma key_text_voice : u "text" ≠ u "voice".
Proof. by vm_compute. Qed.

(** X1: whatever the validator returns is a well-formed synthesis request:
    the text is not empty, has at most 10000 characters, carries no white
    space at either end (stripping it again changes nothing), and the voice
    is a string of the allow-list, the one the body names or the default. *)
Theorem validated_pair_invariant (data : json) (text : pystr) (voice : json) :
  validate_request_data data = Ok (text, voice) →
  1 ≤ len text ≤ 10000 ∧
  strip text = text ∧
  (∀ c, head text = Some c → isspace c = false) ∧
  (∀ c, last text = Some c → isspace c = false) ∧
  (∃ v, voice = JStr v ∧ v ∈ Config.ALLOWED_VOICES) ∧
  Py.get data (u "voice") (JStr (u "af_heart")) = Ok voice.
Proof.
  intros (m & s & v & -> & _ & -> & Hne & Hmax & -> & Hin & Hvoice & _)%validate_ok_inv.
  destruct (strip_spec s) as (_ & _ & _ & _ & _ & Hhead & Hlast).
  repeat split; try done.
  - unfold len. destruct (strip s); [done|]. simpl length. lia.
  - apply strip_idempotent.
  - eauto.
  - simpl. by rewrite Hvoice.
Qed.

Lemma validated_pair_invariant_hello :
  let data := body [("text", JStr (u "  Hello world "))]%string in
  validate_request_data data = Ok (u "Hello world", JStr (u "af_heart")) ∧
  1 ≤ len (u "Hello world") ≤ 10000 ∧
  strip (u "Hello world") = u "Hello world" ∧
  (∃ v, JStr (u "af_heart") = JStr v ∧ v ∈ Config.ALLOWED_VOICES).
Proof.
  intros data.
  assert (validate_request_data data = Ok (u "Hello world", JStr (u "af_heart"))) as Hval
    by (vm_compute; reflexivity).
  split; [exact Hval|].
  destruct (validated_pair_invariant data _ _ Hval) as (Hlen & Hstrip & _ & _ & Hvoice & _).
  exact (conj Hlen (conj Hstrip Hvoice)).
Defined.

(** X2: validation is a fixed point on its own output: a body made of the
    text and the voice the validator returned validates to the same pair. *)
Theorem validate_fixed_point (data : json) (text : pystr) (voice : json) :
  validate_request_data data = Ok (text, voice) →
  validate_request_data (JDict {[ u "text" := JStr text; u "voice" := voice ]})
  = Ok (text, voice).
Proof.
  intros Hval.
  apply validate_ok_inv in Hval
    as (_ & s & v & _ & _ & -> & Hpos & Hmax & -> & Hin & _).
  pose proof (strip_idempotent s) as Hstrip.
  remember (strip s) as text eqn:Htext. clear s Htext.
  unfold validate_request_data.
  rewrite (lookup_nonempty _ (u "text") (JStr text)) by apply lookup_insert_eq.
  simpl.
  rewrite lookup_insert_eq. simpl. rewrite Hstrip.
  destruct text as [|c text]; [done|]. simpl.
  assert ((Config.MAX_TEXT_LENGTH <? len (c :: text)) = false) as Hfits.
  { apply Z.ltb_ge. exact Hmax. }
  rewrite Hfits.
  rewrite lookup_insert_ne, lookup_singleton_eq by apply key_text_voice. simpl.
  unfold Py.contains. rewrite bool_decide_eq_true_2 by done. simpl.
  rewrite lookup_insert_ne, lookup_singleton_ne
    by first [apply key_text_format | apply key_voice_format].
  done.
Qed.

Lemma validate_fixed_point_hello :
  let data := body [("text", JStr (u "  Hello world ")); ("format", JStr (u "WAV"));
                    ("voice", JStr (u "bf_emma"))]%string in
  validate_request_data data = Ok (u "Hello world", JStr (u "bf_emma")) ∧
  validate_request_data
    (JDict {[ u "text" := JStr (u "Hello world"); u "voice" := JStr (u "bf_emma") ]})
  = Ok (u "Hello world", JStr (u "bf_emma")).
Proof.
  intros data.
  assert (validate_request_data data = Ok (u "Hello world", JStr (u "bf_emma"))) as Hval
    by (vm_compute; reflexivity).
  exact (conj Hval (validate_fixed_point data _ _ Hval)).
Defined.

(** X3: the validator reads the fields [text], [voice] and [format] only:
    adding or changing any other field of a non-empty body changes neither
    the pair it returns nor the error it raises. *)
Theorem validate_ignores_other_fields (m : gmap pystr json) (k : pystr) (v : json) :
  m ≠ ∅ → k ≠ u "text" → k ≠ u "voice" → k ≠ u "format" →
  validate_request_data (JDict (<[k := v]> m)) = validate_request_data (JDict m).
Proof.
  intros Hm Ht Hv Hf. unfold validate_request_data.
  rewrite (proj2 (truthy_dict m) Hm).
  rewrite (lookup_nonempty (<[k := v]> m) k v) by apply lookup_insert_eq.
  simpl. by rewrite !lookup_insert_ne.
Qed.

Lemma validate_ignores_other_fields_speed :
  let m : gmap pystr json := {[ u "text" := JStr (u "Hi") ]} in
  (m ≠ ∅ ∧ u "speed" ≠ u "text" ∧ u "speed" ≠ u "voice" ∧ u "speed" ≠ u "format") ∧
  validate_request_data (JDict (<[u "speed" := JInt 2]> m)) = validate_request_data (JDict m).
Proof.
  intros m.
  assert (m ≠ ∅) as Hm by (apply insert_non_empty).
  assert (u "speed" ≠ u "text") as Ht by (vm_compute; discriminate).
  assert (u "speed" ≠ u "voice") as Hv by (vm_compute; discriminate).
  assert (u "speed" ≠ u "format") as Hf by (vm_compute; discriminate).
  split; [done|].
  exact (validate_ignores_other_fields m (u "speed") (JInt 2) Hm Ht Hv Hf).
Defined.

Lemma truthy_false_iff (data : json) :
  truthy data = false ↔
  data = JNull ∨ data = JBool false ∨ data = JInt 0 ∨
  (∃ x, data = JFloat x ∧ PrimFloat.eqb x 0 = true) ∨
  data = JStr [] ∨ data = JList [] ∨ data = JDict ∅.
Proof.
  split.
  - destruct data as [|[]|n|x|s|l|m]; simpl; try done; eauto 10.
    + intros ->%negb_false_iff%Z.eqb_eq. eauto 10.
    + intros Hx%negb_false_iff. eauto 10.
    + destruct s; [eauto 10 | done].
    + destruct l; [eauto 10 | done].
    + intros ->%negb_false_iff%Nat.eqb_eq%map_size_empty_iff. eauto 10.
  - intros [->|[->|[->|[(x & -> & Hx)|[->|[->| ->]]]]]]; try done.
    simpl. by rewrite Hx.
Qed.

(** X4: the error [Request body is required] is raised for exactly the
    bodies Python takes as false: null, false, the numbers 0 and 0.0, the
    empty string, the empty array, and also the empty object. *)
Theorem body_required_iff (data : json) :
  validate_request_data data = Raise (BadRequest msg_body_required) ↔
  data = JNull ∨ data = JBool false ∨ data = JInt 0 ∨
  (∃ x, data = JFloat x ∧ PrimFloat.eqb x 0 = true) ∨
  data = JStr [] ∨ data = JList [] ∨ data = JDict ∅.
Proof.
  rewrite <-truthy_false_iff. unfold validate_request_data.
  destruct (truthy data) eqn:Hbody; simpl; [|done].
  split; [|done].
  destruct data; simpl; try done.
  destruct (default (JStr (u "")) (m !! u "text")); simpl; try done.
  destruct (length (strip s) =? 0)%nat; simpl; [intros [=]|].
  destruct (Config.MAX_TEXT_LENGTH <? len (strip s)); simpl; [intros [=]|].
  destruct (Py.contains _ _); simpl; [|intros [=]].
  destruct (default JNull (m !! u "format")); simpl;
    repeat (case_match; simpl; try done); intros [=].
Qed.

(** X5: with a text that is absent or a string, the error [Text field is
    required and cannot be empty] is raised exactly when the body is not
    empty and the text is absent, empty or made of white space only,
    whatever the voice and the format are. *)
Theorem text_required_iff (m : gmap pystr json) (s : pystr) :
  default (JStr (u "")) (m !! u "text") = JStr s →
  (validate_request_data (JDict m) = Raise (BadRequest msg_text_required) ↔
   m ≠ ∅ ∧ Forall (λ c, isspace c = true) s).
Proof.
  intros Ht. rewrite <-strip_nil_iff, <-truthy_dict. unfold validate_request_data.
  destruct (truthy (JDict m)) eqn:Hbody; simpl.
  2:{ split; [intros [=] | by intros [? _]]. }
  rewrite Ht. simpl.
  destruct (strip s) eqn:Hs; simpl; [done|].
  split; [|by intros [_ ?]].
  destruct (Config.MAX_TEXT_LENGTH <? len _); simpl; [intros [=]|].
  destruct (Py.contains _ _); simpl; [|intros [=]].
  destruct (default JNull (m !! u "format")); simpl;
    repeat (case_match; simpl; try done); intros [=].
Qed.

Lemma text_required_iff_blank :
  let s := [0x20; 0x09; 0x3000; 0x0A]%N in
  let m : gmap pystr json := {[ u "text" := JStr s; u "voice" := JStr (u "xx_invalid") ]} in
  default (JStr (u "")) (m !! u "text") = JStr s ∧
  (m ≠ ∅ ∧ Forall (λ c, isspace c = true) s) ∧
  validate_request_data (JDict m) = Raise (BadRequest msg_text_required).
Proof.
  intros s m.
  assert (default (JStr (u "")) (m !! u "text") = JStr s) as Ht by (vm_compute; reflexivity).
  assert (m ≠ ∅ ∧ Forall (λ c, isspace c = true) s) as Hblank.
  { split; [apply insert_non_empty | repeat constructor]. }
  exact (conj Ht (conj Hblank (proj2 (text_required_iff m s Ht) Hblank))).
Defined.

(** * Further properties of the handlers *)

Section HandlerProperties.

Context (getcwd : pystr) (uuid4 : nat → pystr).
Context (subprocess_run :
  list pystr → Z → nat → gmap pystr (list N) → result CompletedProcess * gmap pystr (list N)).

Ltac unfold_monad :=
  unfold mbind, M_bind, mret, M_ret, lift, try_except, logger, os_path_exists; simpl.

(** The download handler on a validated request, in full. *)
Lemma synthesize_text_validated request data text voice w :
  get_json request = Ok data →
  validate_request_data data = Ok (text, JStr voice) →
  let output_path := output_path_of getcwd (uuid4 (uuids w)) in
  let argv := kokoro_argv text voice output_path in
  let out := subprocess_run argv 60 (length (invocations w)) (files w) in
  ∃ lg response,
    synthesize_text getcwd uuid4 subprocess_run request w =
    (Ok response,
     {| files := out.2; uuids := S (uuids w);
        invocations := invocations w ++ [(argv, 60)]; logs := logs w ++ lg |}) ∧
    if succeeded out output_path
    then ∃ audio, out.2 !! output_path = Some audio ∧
                  response = download_response audio output_path
    else response = synthesis_failed.
Proof.
  intros Hjson Hval output_path argv out.
  pose (w1 := {| files := files w; uuids := S (uuids w); invocations := invocations w;
                 logs := logs w |}).
  destruct (run_kokoro_command_spec subprocess_run text voice output_path w1) as [lg Hrun].
  simpl in Hrun. fold argv out in Hrun.
  unfold synthesize_text. unfold_monad. rewrite Hjson, Hval. simpl.
  unfold new_uuid. simpl. fold output_path w1. rewrite Hrun. clear Hrun.
  destruct (succeeded out output_path) eqn:Hok; simpl; [|by eauto].
  apply succeeded_file in Hok as [audio Hfile].
  unfold send_file, read_file. unfold_monad. rewrite Hfile. simpl.
  eexists lg, _. split; [reflexivity|]. eauto.
Qed.

(** The inline handler on a validated request, in full. *)
Lemma synthesize_stream_validated request data text voice w :
  get_json request = Ok data →
  validate_request_data data = Ok (text, JStr voice) →
  let output_path := output_path_of getcwd (uuid4 (uuids w)) in
  let argv := kokoro_argv text voice output_path in
  let out := subprocess_run argv 60 (length (invocations w)) (files w) in
  ∃ lg response,
    synthesize_stream getcwd uuid4 subprocess_run request w =
    (Ok response,
     {| files := if succeeded out output_path then delete output_path out.2 else out.2;
        uuids := S (uuids w);
        invocations := invocations w ++ [(argv, 60)]; logs := logs w ++ lg |}) ∧
    if succeeded out output_path
    then ∃ audio, out.2 !! output_path = Some audio ∧ response = inline_response audio
    else response = synthesis_failed.
Proof.
  intros Hjson Hval output_path argv out.
  pose (w1 := {| files := files w; uuids := S (uuids w); invocations := invocations w;
                 logs := logs w |}).
  destruct (run_kokoro_command_spec subprocess_run text voice output_path w1) as [lg Hrun].
  simpl in Hrun. fold argv out in Hrun.
  unfold synthesize_stream. unfold_monad. rewrite Hjson, Hval. simpl.
  unfold new_uuid. simpl. fold output_path w1. rewrite Hrun. clear Hrun.
  destruct (succeeded out output_path) eqn:Hok; simpl; [|by eauto].
  apply succeeded_file in Hok as [audio Hfile].
  unfold read_file, os_unlink. simpl. rewrite Hfile. simpl. rewrite Hfile. simpl.
  eexists lg, _. split; [reflexivity|]. eauto.
Qed.

Lemma on_exception_bad_request name d w :
  on_exception name (BadRequest d) w = (Ok (invalid_request (BadRequest d)), w).
Proof. reflexivity. Qed.

Lemma on_exception_other name e w :
  is_BadRequest e = false →
  ∃ w', on_exception name e w = (Ok internal_server_error, w') ∧
        files w' = files w ∧ uuids w' = uuids w ∧ invocations w' = invocations w ∧
        logs w' = logs w ++ [(ERROR, u "Unexpected error in " ++ u name ++ u ": " ++ exn_str e)].
Proof. destruct e; try done; intros _; eexists; (split; [reflexivity|]); done. Qed.

(** Every way a handler can answer. *)
Lemma handle_outcome ep request w :
  ∃ response w',
    handle getcwd uuid4 subprocess_run ep request w = (Ok response, w') ∧
    ((synthesizes ep = false ∧ w' = w ∧ status response = 200 ∧ on_close response = None) ∨
     (synthesizes ep = true ∧ w' = w ∧
      ∃ d, bad_request_of request = Some d ∧ response = invalid_request (BadRequest d)) ∨
     (synthesizes ep = true ∧ bad_request_of request = None ∧
      response = internal_server_error ∧
      files w' = files w ∧ uuids w' = uuids w ∧ invocations w' = invocations w ∧
      ∀ data, get_json request = Ok data → ∃ e, validate_request_data data = Raise e) ∨
     (synthesizes ep = true ∧ bad_request_of request = None ∧
      ∃ data text voice,
        get_json request = Ok data ∧
        validate_request_data data = Ok (text, JStr voice) ∧
        uuids w' = S (uuids w) ∧
        invocations w' = invocations w ++
          [(kokoro_argv text voice (output_path_of getcwd (uuid4 (uuids w))), 60)] ∧
        let output_path := output_path_of getcwd (uuid4 (uuids w)) in
        let out := subprocess_run (kokoro_argv text voice output_path) 60
                     (length (invocations w)) (files w) in
        if succeeded out output_path
        then ∃ audio, out.2 !! output_path = Some audio ∧
               ((ep = Synthesize ∧ response = download_response audio output_path ∧
                 files w' = out.2) ∨
                (ep = SynthesizeStream ∧ response = inline_response audio ∧
                 files w' = delete output_path out.2))
        else response = synthesis_failed ∧ files w' = out.2)).
Proof.
  destruct (synthesizes ep) eqn:Hep.
  2:{ destruct ep; try done; eexists _, w; (split; [reflexivity|]); left; done. }
  unfold bad_request_of.
  destruct (get_json request) as [data|e] eqn:Hjson.
  - destruct (validate_request_data data) as [[text voice]|e] eqn:Hval.
    + destruct (validate_ok_inv _ _ _ Hval) as (_ & _ & v & _ & _ & _ & _ & _ & -> & _).
      destruct ep; try done; simpl.
      * destruct (synthesize_text_validated request data text v w Hjson Hval)
          as (lg & response & -> & Hresp).
        eexists _, _. split; [reflexivity|]. do 3 right.
        split; [done|]. split; [done|]. exists data, text, v. simpl.
        repeat (split; [done|]).
        destruct (succeeded _ _); [|done].
        destruct Hresp as (audio & ? & ?). exists audio. split; [done|]. by left.
      * destruct (synthesize_stream_validated request data text v w Hjson Hval)
          as (lg & response & -> & Hresp).
        eexists _, _. split; [reflexivity|]. do 3 right.
        split; [done|]. split; [done|]. exists data, text, v. simpl.
        repeat (split; [done|]).
        destruct (succeeded _ _); [|done].
        destruct Hresp as (audio & ? & ?). exists audio. split; [done|]. by right.
    + rewrite (handle_validation_raises _ _ _ _ _ _ _ w Hep Hjson Hval).
      destruct (is_BadRequest e) eqn:He.
      * destruct e; try done. rewrite on_exception_bad_request.
        eexists _, _. split; [reflexivity|]. right. left. eauto.
      * destruct (on_exception_other
                    (match ep with Synthesize => "synthesize_text" | _ => "synthesize_stream" end)
                    e w He) as (w' & -> & ? & ? & ? & _).
        eexists _, _. split; [reflexivity|]. do 2 right. left.
        split; [done|]. split; [by destruct e|]. repeat (split; [done|]).
        intros ? [= <-]. eauto.
  - rewrite (handle_get_json_raises _ _ _ _ _ _ w Hep Hjson).
    destruct (is_BadRequest e) eqn:He.
    + destruct e; try done. rewrite on_exception_bad_request.
      eexists _, _. split; [reflexivity|]. right. left. eauto.
    + destruct (on_exception_other
                  (match ep with Synthesize => "synthesize_text" | _ => "synthesize_stream" end)
                  e w He) as (w' & -> & ? & ? & ? & _).
      eexists _, _. split; [reflexivity|]. do 2 right. left.
      split; [done|]. split; [by destruct e|]. repeat (split; [done|]). done.
Qed.









(** X11: when the synthesis of a validated request fails, either handler
    answers the fixed 500 body, registers nothing for clean-up and deletes
    nothing: the file system is the one the tool left, so a file a failing
    tool wrote at the artifact path stays on disk. *)
Theorem failed_synthesis_deletes_nothing ep request data text voice w :
  synthesizes ep = true →
  get_json request = Ok data →
  validate_request_data data = Ok (text, JStr voice) →
  let output_path := output_path_of getcwd (uuid4 (uuids w)) in
  let out := subprocess_run (kokoro_argv text voice output_path) 60
               (length (invocations w)) (files w) in
  succeeded out output_path = false →
  ∃ w',
    handle getcwd uuid4 subprocess_run ep request w = (Ok synthesis_failed, w') ∧
    status synthesis_failed = 500 ∧ on_close synthesis_failed = None ∧
    files w' = out.2 ∧
    close synthesis_failed w' = (Ok (), w').
Proof.
  intros Hep Hjson Hval output_path out Hok.
  destruct ep; try done; simpl.
  - destruct (synthesize_text_validated request data text voice w Hjson Hval)
      as (lg & response & Hrun & Hresp).
    fold output_path out in Hrun, Hresp. rewrite Hok in Hresp. subst response.
    eexists. split; [exact Hrun|]. repeat split; reflexivity.
  - destruct (synthesize_stream_validated request data text voice w Hjson Hval)
      as (lg & response & Hrun & Hresp).
    fold output_path out in Hrun, Hresp. rewrite Hok in Hrun, Hresp. subst response.
    eexists. split; [exact Hrun|]. repeat split; reflexivity.
Qed.


(** *** Requests served in a row *)

Lemma handle_trace ep request w :
  ∃ response w',
    handle getcwd uuid4 subprocess_run ep request w = (Ok response, w') ∧
    if reaches_tool (ep, request)
    then uuids w' = S (uuids w) ∧
         ∃ call, invocations w' = invocations w ++ [call] ∧ validated_call getcwd call
    else uuids w' = uuids w ∧ invocations w' = invocations w.
Proof.
  destruct (handle_outcome ep request w) as (response & w' & Hrun & Hcases).
  exists response, w'. split; [exact Hrun|]. clear Hrun.
  unfold reaches_tool. simpl.
  destruct Hcases as [(Hep & -> & _)|[(Hep & -> & d & Hbad & _)|
    [(Hep & _ & _ & _ & Hu & Hinv & Hnot)|
     (Hep & _ & data & text & voice & Hjson & Hval & Hu & Hinv & _)]]]; rewrite Hep; simpl.
  - done.
  - unfold bad_request_of in Hbad.
    destruct (get_json request) as [data|e]; [|done].
    by destruct (validate_request_data data).
  - destruct (get_json request) as [data|e]; [|done].
    by destruct (Hnot data eq_refl) as [e ->].
  - rewrite Hjson, Hval. split; [done|]. eexists. split; [exact Hinv|].
    apply validate_ok_inv in Hval
      as (_ & s & v & _ & _ & -> & Hne & Hmax & [= <-] & Hin & _).
    split; [done|]. exists (strip s), voice, (uuid4 (uuids w)).
    repeat split; try done.
    + unfold len. destruct (strip s); [done|]. simpl length. lia.
    + apply strip_idempotent.
Qed.

Lemma serve_trace requests : ∀ w,
  ∃ responses w' calls,
    serve getcwd uuid4 subprocess_run requests w = (Ok responses, w') ∧
    length responses = length requests ∧
    invocations w' = invocations w ++ calls ∧
    uuids w' = (uuids w + length calls)%nat ∧
    Forall (validated_call getcwd) calls ∧
    length calls = length (filter (λ r, reaches_tool r = true) requests).
Proof.
  induction requests as [|[ep request] rest IH]; intros w.
  - exists [], w, []. simpl. rewrite app_nil_r. repeat split; try done; lia.
  - destruct (handle_trace ep request w) as (response & w1 & Hrun & Hstep).
    destruct (IH w1) as (responses & w' & calls & Hrest & Hlen & Hinv & Hu & Hall & Hcount).
    simpl. unfold mbind, M_bind, mret, M_ret. rewrite Hrun, Hrest.
    rewrite filter_cons.
    destruct (reaches_tool (ep, request)) eqn:Hreach.
    + destruct Hstep as (Hu1 & call & Hinv1 & Hcall).
      exists (response :: responses), w', (call :: calls).
      rewrite decide_True by done. simpl.
      repeat split; try done.
      * by rewrite Hlen.
      * rewrite Hinv, Hinv1, <-app_assoc. done.
      * rewrite Hu, Hu1. lia.
      * by constructor.
      * by rewrite Hcount.
    + destruct Hstep as (Hu1 & Hinv1).
      exists (response :: responses), w', calls.
      rewrite decide_False by done. simpl.
      repeat split; try done.
      * by rewrite Hlen.
      * by rewrite Hinv, Hinv1.
      * rewrite Hu, Hu1. done.
Qed.

(** X13: the tool is only ever called on validated input.  Whatever
    requests are served, on whatever endpoints, every call of the tool that
    is made has the timeout 60 and the seven arguments [kokoro --voice v
    --text t -o p] with [v] in the allow-list, [t] a stripped text of 1 to
    10000 characters, and [p] an artifact path under the temp directory. *)
Theorem tool_only_sees_validated_input requests w :
  ∃ responses w' calls,
    serve getcwd uuid4 subprocess_run requests w = (Ok responses, w') ∧
    invocations w' = invocations w ++ calls ∧
    ∀ call, call ∈ calls →
      call.2 = 60 ∧
      ∃ text voice file_id,
        call.1 = [u "kokoro"; u "--voice"; voice; u "--text"; text; u "-o";
                  os_path_join (os_path_join getcwd (u "output_temp"))
                    (u "kokoro_tts_" ++ file_id ++ u ".wav")] ∧
        voice ∈ Config.ALLOWED_VOICES ∧ 1 ≤ len text ≤ 10000 ∧ strip text = text.
Proof.
  destruct (serve_trace requests w)
    as (responses & w' & calls & Hrun & _ & Hinv & _ & Hall & _).
  exists responses, w', calls. split; [exact Hrun|]. split; [exact Hinv|].
  intros call Hin. rewrite Forall_forall in Hall. exact (Hall call Hin).
Qed.

(** X14: served requests are answered one by one, and the tool is called
    exactly once for each request that reaches a synthesis endpoint with a
    body that parses and validates, and never for any other request; one
    identifier is drawn per call. *)
Theorem one_call_per_valid_request requests w :
  ∃ responses w' calls,
    serve getcwd uuid4 subprocess_run requests w = (Ok responses, w') ∧
    length responses = length requests ∧
    invocations w' = invocations w ++ calls ∧
    length calls = length (filter (λ r, reaches_tool r = true) requests) ∧
    uuids w' = (uuids w + length calls)%nat.
Proof.
  destruct (serve_trace requests w)
    as (responses & w' & calls & Hrun & Hlen & Hinv & Hu & _ & Hcount).
  exists responses, w', calls. done.
Qed.

(** *** What the invoker logs *)

(** X15: the invoker logs the command line once at level INFO before it
    calls the tool, logs nothing at level ERROR when it answers success, and
    logs exactly one ERROR record when it answers failure: the captured
    standard error of the tool after a non-zero exit, and a fixed message
    after a timeout. *)
Theorem invoker_logs_each_failure_once text voice output_path w :
  let argv := kokoro_argv text voice output_path in
  let out := subprocess_run argv 60 (length (invocations w)) (files w) in
  ∃ b w',
    run_kokoro_command subprocess_run text (JStr voice) output_path w = (Ok b, w') ∧
    records INFO w' = records INFO w ++ [u "Running command: " ++ join (u " ") argv] ∧
    records WARNING w' = records WARNING w ∧
    (if b then records ERROR w' = records ERROR w
     else ∃ msg, records ERROR w' = records ERROR w ++ [msg]) ∧
    (∀ p, out.1 = Ok p → returncode p ≠ 0 →
          records ERROR w' = records ERROR w ++ [u "Kokoro command failed: " ++ stderr p]) ∧
    (∀ m, out.1 = Raise (TimeoutExpired m) →
          records ERROR w' = records ERROR w ++ [u "Kokoro command timed out"]).
Proof.
  intros argv out. subst out argv.
  unfold run_kokoro_command, run, spawn, kokoro_cmd, records. unfold_monad.
  destruct (subprocess_run _ _ _ _) as [[p|e] fs] eqn:Hout; simpl.
  - destruct (returncode p =? 0) eqn:Hcode; simpl.
    + apply Z.eqb_eq in Hcode.
      destruct (bool_decide _); simpl; eexists _, _; (split; [reflexivity|]); simpl;
        rewrite ?omap_app; simpl; rewrite ?app_nil_r;
        repeat split; try done; try (by eexists);
        try (by intros ? [= <-]); try (by intros ? [=]).
    + eexists _, _. split; [reflexivity|]. simpl.
      rewrite ?omap_app. simpl. rewrite ?app_nil_r.
      repeat split; try done; try (by eexists);
        try (by intros ? [= <-]); try (by intros ? [=]).
  - destruct e; simpl; eexists _, _; (split; [reflexivity|]); simpl;
      rewrite ?omap_app; simpl; rewrite ?app_nil_r;
      repeat split; try done; try (by eexists);
      try (by intros ? [= <-]); try (by intros ? [=]).
Qed.

End HandlerProperties.

(** ** The further properties at concrete requests *)



(** X11 at a tool that writes the start of the file and exits with 1: the
    partial file is still there after the 500. *)
Lemma failed_synthesis_deletes_nothing_partial :
  let request := Demo.post [("text", JStr (u "Hello world"))]%string in
  let data := body [("text", JStr (u "Hello world"))]%string in
  let output_path := output_path_of Demo.cwd (Demo.uuid4 0) in
  let out := kokoro_partial (kokoro_argv (u "Hello world") (u "af_heart") output_path) 60
               0%nat ∅ in
  (validate_request_data data = Ok (u "Hello world", JStr (u "af_heart")) ∧
   succeeded out output_path = false ∧ out.2 !! output_path = Some (u "RI")) ∧
  ∃ w',
    handle Demo.cwd Demo.uuid4 kokoro_partial SynthesizeStream request Demo.start
      = (Ok synthesis_failed, w') ∧
    status synthesis_failed = 500 ∧ on_close synthesis_failed = None ∧
    files w' = out.2 ∧
    close synthesis_failed w' = (Ok (), w').
Proof.
  intros request data output_path out.
  assert (validate_request_data data = Ok (u "Hello world", JStr (u "af_heart"))) as Hval
    by (vm_compute; reflexivity).
  assert (succeeded out output_path = false) as Hok by (vm_compute; reflexivity).
  assert (out.2 !! output_path = Some (u "RI")) as Hfile by (vm_compute; reflexivity).
  split; [exact (conj Hval (conj Hok Hfile))|].
  exact (failed_synthesis_deletes_nothing Demo.cwd Demo.uuid4 kokoro_partial
           SynthesizeStream request data (u "Hello world") (u "af_heart") Demo.start
           eq_refl eq_refl Hval Hok).
Defined.

(** * The artifact path *)

Lemma ends_with_output_temp (a : pystr) :
  endswith_sep (a ++ u "output_temp") = false ∧
  Nat.eqb (length (a ++ u "output_temp")) 0 = false.
Proof.
  assert (u "output_temp" = u "output_tem" ++ [0x70%N]) as -> by (vm_compute; reflexivity).
  split.
  - unfold endswith_sep. by rewrite app_assoc, last_snoc.
  - rewrite !length_app. simpl. apply Nat.eqb_neq. lia.
Qed.

Lemma os_path_join_relative (a b : pystr) :
  startswith_sep b = false →
  os_path_join a b =
  if Nat.eqb (length a) 0 || endswith_sep a then a ++ b else a ++ [sep] ++ b.
Proof. unfold os_path_join. by intros ->. Qed.

(** X16: the artifact of an identifier is the file [kokoro_tts_<id>.wav]
    directly inside the temp directory, and the temp directory is
    [output_temp] inside the working directory: for every working directory
    and every identifier the path is the temp directory, a slash, and the
    file name, and the working directory is a prefix of it. *)
Theorem artifact_path_is_inside_temp_dir (getcwd file_id : pystr) :
  output_path_of getcwd file_id
  = TEMP_DIR getcwd ++ u "/kokoro_tts_" ++ file_id ++ u ".wav" ∧
  (TEMP_DIR getcwd = getcwd ++ u "/output_temp" ∨
   TEMP_DIR getcwd = getcwd ++ u "output_temp" ∧
   (getcwd = [] ∨ last getcwd = Some sep)) ∧
  getcwd `prefix_of` output_path_of getcwd file_id.
Proof.
  assert (startswith_sep (u "output_temp") = false) as Ho by (vm_compute; reflexivity).
  assert (startswith_sep (u "kokoro_tts_" ++ file_id ++ u ".wav") = false) as Hk.
  { assert (u "kokoro_tts_" = 0x6B%N :: u "okoro_tts_") as -> by (vm_compute; reflexivity).
    reflexivity. }
  assert (u "/output_temp" = [sep] ++ u "output_temp") as Hs1 by (vm_compute; reflexivity).
  assert (u "/kokoro_tts_" = [sep] ++ u "kokoro_tts_") as Hs2 by (vm_compute; reflexivity).
  assert (TEMP_DIR getcwd = getcwd ++ u "/output_temp" ∨
          TEMP_DIR getcwd = getcwd ++ u "output_temp" ∧
          (getcwd = [] ∨ last getcwd = Some sep)) as Htemp.
  { unfold TEMP_DIR. rewrite (os_path_join_relative _ _ Ho).
    destruct getcwd as [|c cwd] eqn:Hcwd; simpl; [right; by auto|].
    unfold endswith_sep. rewrite <-Hcwd.
    destruct (last getcwd) as [d|] eqn:Hlast; [|left; by rewrite Hs1].
    destruct (d =? sep)%N eqn:Hd; [|left; by rewrite Hs1].
    apply N.eqb_eq in Hd as ->. right. auto. }
  assert (output_path_of getcwd file_id
          = TEMP_DIR getcwd ++ u "/kokoro_tts_" ++ file_id ++ u ".wav") as Hpath.
  { unfold output_path_of. rewrite (os_path_join_relative _ _ Hk).
    assert (∃ a, TEMP_DIR getcwd = a ++ u "output_temp") as [a Ha].
    { destruct Htemp as [->|[-> _]]; [|by eexists].
      exists (getcwd ++ [sep]). by rewrite Hs1, <-app_assoc. }
    rewrite Ha. destruct (ends_with_output_temp a) as [-> ->]. simpl.
    by rewrite Hs2, <-!app_assoc. }
  split; [exact Hpath|]. split; [exact Htemp|].
  rewrite Hpath. destruct Htemp as [->|[-> _]]; rewrite <-app_assoc; by eexists.
Qed.
